(** * Gravix OCR: the OCR route handler and its image preprocessor

    A shallow embedding of [app/api/ocr/route.ts] (functions
    [createOpenAIClient], [processImageForOCR] and [POST]) and of the upload
    guard [processFile] of [app/page.tsx].

    - JavaScript numbers are IEEE 754 binary64 values: the kernel's primitive
      floats.  Integers that the program only compares or passes on are kept
      in [Z].
    - [try]/[catch], [throw] and early [return] are modelled by a state and
      exception monad [M]; its state is the trace of calls made to the two
      external libraries (sharp and the OpenAI SDK).
    - The libraries themselves are interfaces ([SharpLib], [OpenAISdk]): every
      method may return normally or throw.  The HTTP requests and retries of
      the SDK beneath one call are modelled in [SdkTransport].
    - [console.log] and [console.error] have no influence on control flow and
      are left out. *)

From Stdlib Require Import ZArith List String Ascii Bool Lia.
From Stdlib Require Import Strings.Byte.
From Stdlib Require Import Numbers.DecimalString.
From Stdlib Require Import Floats.PrimFloat Floats.FloatOps Floats.SpecFloat.
From Stdlib Require Import Numbers.Cyclic.Int63.Uint63.
Import ListNotations.

#[local] Set Warnings "-inexact-float".

Local Open Scope string_scope.
Local Open Scope list_scope.
Local Open Scope Z_scope.

(* ===================================================================== *)
(** * JavaScript values and built-ins used by the handler *)
(* ===================================================================== *)

Module Js.

(** A Node [Buffer]: a sequence of bytes. *)
Definition Buffer := list byte.

(** Values that can be thrown.  [OpenAI.APIError] is a subclass of [Error];
    [NotAnError] stands for a thrown value that is not an [Error] instance. *)
Inductive Thrown : Type :=
| APIError (status : option Z) (message : string)
| Error (message : string)
| NotAnError.

(** [e instanceof Error ? e.message : -] *)
Definition message_of (e : Thrown) : option string :=
  match e with
  | APIError _ m => Some m
  | Error m => Some m
  | NotAnError => None
  end.

(** Result of evaluating an expression that may throw. *)
Inductive Outcome (A : Type) : Type :=
| Normal (a : A)
| Throws (e : Thrown).
Arguments Normal {A} a.
Arguments Throws {A} e.

(** Truthiness of [string | undefined]: [undefined] and the empty string are
    falsy. *)
Definition truthy_string (s : option string) : bool :=
  match s with
  | Some EmptyString => false
  | Some _ => true
  | None => false
  end.

(** Truthiness of [number | undefined] for an integer-valued number. *)
Definition truthy_int (n : option Z) : bool :=
  match n with
  | Some n => negb (n =? 0)
  | None => false
  end.

(** [String.prototype.startsWith] *)
Fixpoint startsWith (s p : string) : bool :=
  match p, s with
  | EmptyString, _ => true
  | String c p', String d s' => Ascii.eqb c d && startsWith s' p'
  | String _ _, EmptyString => false
  end.

(** [String.prototype.includes] *)
Fixpoint includes (s sub : string) : bool :=
  startsWith s sub ||
  match s with
  | EmptyString => false
  | String _ s' => includes s' sub
  end.

(** Decimal rendering of an integer-valued number in a template string. *)
Definition string_of_int (n : Z) : string :=
  NilZero.string_of_int (Z.to_int n).

(** ** Numbers *)

Definition number := float.

(** The number denoted by an integer (exact below 2^53). *)
Definition of_int (z : Z) : number :=
  if z <? 0 then PrimFloat.opp (PrimFloat.of_uint63 (Uint63.of_Z (- z)))
  else PrimFloat.of_uint63 (Uint63.of_Z z).

(** [Math.round]: the integer nearest to [x], ties towards +infinity, that is
    floor (x + 1/2) computed exactly.  A finite [x] is [n * 2^e] for its
    signed integer mantissa [n]; for [e < 0] the result is
    floor ((2 n + 2^-e) / 2^(1-e)).  [None] stands for NaN and the
    infinities, which [Math.round] returns unchanged. *)
Definition Math_round (x : number) : option Z :=
  match Prim2SF x with
  | S754_zero _ => Some 0
  | S754_finite s m e =>
      let n := if s then Z.neg m else Z.pos m in
      if 0 <=? e then Some (n * 2 ^ e)
      else Some (Z.shiftr (2 * n + Z.shiftl 1 (- e)) (1 - e))
  | S754_infinity _ => None
  | S754_nan => None
  end.

(** ** [Buffer.prototype.toString("base64")] (RFC 4648, with padding) *)

Definition base64_alphabet : string :=
  "ABCDEFGHIJKLMNOPQRSTUVWXYZabcdefghijklmnopqrstuvwxyz0123456789+/".

Definition base64_char (n : Z) : ascii :=
  match String.get (Z.to_nat n) base64_alphabet with
  | Some c => c
  | None => "="%char
  end.

Definition byte_val (b : byte) : Z := Z.of_N (Byte.to_N b).

Fixpoint base64 (b : Buffer) : string :=
  match b with
  | [] => ""
  | [b1] =>
      let n := byte_val b1 in
      String (base64_char (n / 4))
        (String (base64_char ((n mod 4) * 16)) "==")
  | [b1; b2] =>
      let n := byte_val b1 in
      let m := byte_val b2 in
      String (base64_char (n / 4))
        (String (base64_char ((n mod 4) * 16 + m / 16))
           (String (base64_char ((m mod 16) * 4)) "="))
  | b1 :: b2 :: b3 :: rest =>
      let n := byte_val b1 in
      let m := byte_val b2 in
      let k := byte_val b3 in
      String (base64_char (n / 4))
        (String (base64_char ((n mod 4) * 16 + m / 16))
           (String (base64_char ((m mod 16) * 4 + k / 64))
              (String (base64_char (k mod 64)) (base64 rest))))
  end.

(** The bytes of an ASCII string (used to write sample inputs). *)
Definition bytes_of_string (s : string) : Buffer := list_byte_of_string s.

End Js.

(* ===================================================================== *)
(** * The two external libraries, as interfaces *)
(* ===================================================================== *)

Module SharpApi.
Import Js.

(** The fields of [sharp(...).metadata()] that the handler reads. *)
Record Metadata : Type := {
  width : option Z;
  height : option Z;
  format : option string
}.

Inductive Kernel : Type := nearest | cubic | mitchell | lanczos2 | lanczos3.

Record ResizeOptions : Type := {
  resize_width : option Z;
  resize_height : option Z;
  resize_kernel : Kernel
}.

Record SharpenOptions : Type := {
  sigma : Z; m1 : Z; m2 : Z; x1 : Z; y2 : Z; y3 : Z
}.

Record PngOptions : Type := {
  quality : Z;
  compressionLevel : Z
}.

(** The part of sharp's API that the handler calls.  [Sharp] is the pipeline
    object; the constructor, every chained method and both asynchronous
    readers may throw (reject). *)
Class SharpLib : Type := {
  Sharp : Type;
  sharp : Buffer -> Outcome Sharp;
  metadata : Sharp -> Outcome Metadata;
  grayscale : Sharp -> Outcome Sharp;
  normalize : Sharp -> Outcome Sharp;
  resize : ResizeOptions -> Sharp -> Outcome Sharp;
  sharpen : SharpenOptions -> Sharp -> Outcome Sharp;
  gamma : number -> Sharp -> Outcome Sharp;
  png : PngOptions -> Sharp -> Outcome Sharp;
  toBuffer : Sharp -> Outcome Buffer
}.

(** The calls on sharp, as they appear in the trace. *)
Inductive SharpCall : Type :=
| call_sharp (input : Buffer)
| call_metadata
| call_grayscale
| call_normalize
| call_resize (options : ResizeOptions)
| call_sharpen (options : SharpenOptions)
| call_gamma (g : number)
| call_png (options : PngOptions)
| call_toBuffer.

End SharpApi.

Module OpenAIApi.
Import Js.

(** [new OpenAI({ apiKey, baseURL })] *)
Record OpenAI : Type := {
  apiKey : string;
  baseURL : string
}.

Inductive ContentPart : Type :=
| text_part (text : string)
| image_url_part (url : string).

Record MessageParam : Type := {
  role : string;
  content : list ContentPart
}.

Record ChatCompletionCreateParams : Type := {
  messages : list MessageParam;
  model : string;
  temperature : Z;
  max_tokens : Z;
  top_p : Z;
  seed : Z;
  stream : bool
}.

(** The response, as far as the handler inspects it.  Every field the
    handler tests for presence is optional. *)
Record ChatCompletionMessage : Type := {
  message_content : option string
}.

Record Choice : Type := {
  message : option ChatCompletionMessage
}.

Record ChatCompletion : Type := {
  choices : option (list Choice)
}.

(** [openai.chat.completions.create(params)]: one invocation of the SDK
    method; it resolves to a completion (possibly null) or rejects. *)
Class OpenAISdk : Type := {
  chat_completions_create :
    OpenAI -> ChatCompletionCreateParams -> Outcome (option ChatCompletion)
}.

End OpenAIApi.

(* ===================================================================== *)
(** * Traces and the handler monad *)
(* ===================================================================== *)

Module Eff.
Import Js SharpApi OpenAIApi.

Inductive Event : Type :=
| SharpEvent (c : SharpCall)
| UpstreamCall (client : OpenAI) (params : ChatCompletionCreateParams).

Definition Trace := list Event.

(** A computation: from the trace so far to an outcome and the extended
    trace. *)
Definition M (A : Type) : Type := Trace -> Outcome A * Trace.

Definition ret {A} (a : A) : M A := fun t => (Normal a, t).

Definition throw {A} (e : Thrown) : M A := fun t => (Throws e, t).

Definition bind {A B} (m : M A) (k : A -> M B) : M B :=
  fun t =>
    match m t with
    | (Normal a, t') => k a t'
    | (Throws e, t') => (Throws e, t')
    end.

(** [try { m } catch (e) { h e }] *)
Definition try_catch {A} (m : M A) (h : Thrown -> M A) : M A :=
  fun t =>
    match m t with
    | (Normal a, t') => (Normal a, t')
    | (Throws e, t') => h e t'
    end.

(** An expression that may throw and leaves no trace. *)
Definition lift {A} (o : Outcome A) : M A := fun t => (o, t).

(** A library call: recorded in the trace, whatever its outcome. *)
Definition call {A} (ev : Event) (o : Outcome A) : M A :=
  fun t => (o, t ++ [ev]).

(** The requests sent upstream, in order. *)
Fixpoint upstream_calls (t : Trace) : list (OpenAI * ChatCompletionCreateParams) :=
  match t with
  | [] => []
  | UpstreamCall c p :: t' => (c, p) :: upstream_calls t'
  | SharpEvent _ :: t' => upstream_calls t'
  end.

(** The resize requests made to sharp, in order. *)
Fixpoint resize_calls (t : Trace) : list ResizeOptions :=
  match t with
  | [] => []
  | SharpEvent (call_resize o) :: t' => o :: resize_calls t'
  | _ :: t' => resize_calls t'
  end.

End Eff.

Declare Scope eff_scope.
Delimit Scope eff_scope with eff.
Notation "x <- m ;; k" := (Eff.bind m (fun x => k))
  (at level 61, m at next level, right associativity) : eff_scope.

(* ===================================================================== *)
(** * Next.js request and response objects, process environment *)
(* ===================================================================== *)

Module Next.
Import Js.

(** A [File] of the form data: its name, declared MIME type and content.
    [size] is the length of the content. *)
Record File : Type := {
  name : string;
  type : string;
  bytes : Buffer
}.

Definition size (f : File) : Z := Z.of_nat (List.length (bytes f)).

(** An entry of the form data: a file or a text field.  The handler casts
    the entry it reads to [File] without a test, so both kinds reach it. *)
Inductive FormDataEntryValue : Type :=
| entry_file (f : File)
| entry_string (s : string).

(** Form data: the fields in order. *)
Definition FormData := list (string * FormDataEntryValue).

(** [formData.get(key)]: the first entry of that name, or null. *)
Fixpoint FormData_get (fd : FormData) (key : string) : option FormDataEntryValue :=
  match fd with
  | [] => None
  | (k, f) :: fd' => if String.eqb k key then Some f else FormData_get fd' key
  end.

(** Truthiness of the entry read: null and the empty text are falsy, a file
    is an object and truthy. *)
Definition truthy_entry (e : option FormDataEntryValue) : bool :=
  match e with
  | None => false
  | Some (entry_string s) => truthy_string (Some s)
  | Some (entry_file _) => true
  end.

(** [image.arrayBuffer()]: the bytes of a file; a text has no such method
    and null has no properties, the call throws a [TypeError]. *)
Definition arrayBuffer (image : option FormDataEntryValue) : Outcome Buffer :=
  match image with
  | Some (entry_file f) => Normal (bytes f)
  | Some (entry_string _) => Throws (Error "image.arrayBuffer is not a function")
  | None => Throws (Error "Cannot read properties of null (reading 'arrayBuffer')")
  end.

(** A request: [request.formData()] resolves to the form data or rejects
    (a body that is not form data). *)
Record NextRequest : Type := {
  formData : Outcome FormData
}.

Inductive Body : Type :=
| text_body (text : string)
| error_body (error : string).

Record NextResponse : Type := {
  body : Body;
  status : Z
}.

(** [NextResponse.json(body, { status })]; the status defaults to 200. *)
Definition NextResponse_json (b : Body) (init : option Z) : NextResponse :=
  {| body := b; status := match init with Some s => s | None => 200 end |}.

(** [process.env] *)
Record ProcessEnv : Type := {
  GRAVIXLAYER_API_KEY : option string
}.

End Next.

(* ===================================================================== *)
(** * app/api/ocr/route.ts *)
(* ===================================================================== *)

Module Route.
Import Js SharpApi OpenAIApi Eff Next.
Local Open Scope eff_scope.

Section Handler.

Context {sharpLib : SharpLib} {sdk : OpenAISdk}.

Definition createOpenAIClient (env : ProcessEnv) : M OpenAI :=
  let apiKey := GRAVIXLAYER_API_KEY env in
  match apiKey with
  | None | Some EmptyString =>
      throw (Error "GRAVIXLAYER_API_KEY environment variable is required")
  | Some key =>
      ret {| apiKey := key; baseURL := "https://api.gravixlayer.com/v1" |}
  end.

(** The body of the [try] block of [processImageForOCR]. *)
Definition preprocessing_steps (imageBuffer : Buffer) : M Buffer :=
  image0 <- call (SharpEvent (call_sharp imageBuffer)) (sharp imageBuffer) ;;
  metadata <- call (SharpEvent call_metadata) (metadata image0) ;;
  processedImage <- call (SharpEvent (call_sharp imageBuffer)) (sharp imageBuffer) ;;
  processedImage <- call (SharpEvent call_grayscale) (grayscale processedImage) ;;
  processedImage <- call (SharpEvent call_normalize) (normalize processedImage) ;;
  processedImage <-
    (match width metadata, height metadata with
     | Some w, Some h =>
         if negb (w =? 0) && negb (h =? 0) then
           let maxDimension := Z.max w h in
           if maxDimension <? 1000 then
             let scaleFactor := PrimFloat.div (of_int 1000) (of_int maxDimension) in
             let options :=
               {| resize_width := Math_round (PrimFloat.mul (of_int w) scaleFactor);
                  resize_height := Math_round (PrimFloat.mul (of_int h) scaleFactor);
                  resize_kernel := lanczos3 |} in
             call (SharpEvent (call_resize options)) (resize options processedImage)
           else ret processedImage
         else ret processedImage
     | _, _ => ret processedImage
     end) ;;
  let sharpenOptions :=
    {| sigma := 1; m1 := 1; m2 := 2; x1 := 2; y2 := 10; y3 := 20 |} in
  processedImage <-
    call (SharpEvent (call_sharpen sharpenOptions)) (sharpen sharpenOptions processedImage) ;;
  processedImage <-
    call (SharpEvent (call_gamma 1.2%float)) (gamma 1.2%float processedImage) ;;
  let pngOptions := {| quality := 100; compressionLevel := 0 |} in
  processedImage <-
    call (SharpEvent (call_png pngOptions)) (png pngOptions processedImage) ;;
  processedBuffer <- call (SharpEvent call_toBuffer) (toBuffer processedImage) ;;
  ret processedBuffer.

Definition processImageForOCR (imageBuffer : Buffer) : M Buffer :=
  try_catch (preprocessing_steps imageBuffer)
            (fun error => ret imageBuffer).

Definition prompt : string :=
  "Extract all the text from the image. Make sure to only return the extracted text and nothing else.".

Definition mimeType : string := "image/png".

Definition dataUrl_of (processedBuffer : Buffer) : string :=
  ("data:" ++ mimeType ++ ";base64," ++ base64 processedBuffer)%string.

Definition request_params (dataUrl : string) : ChatCompletionCreateParams :=
  {| messages :=
       [ {| role := "user";
            content := [ text_part prompt; image_url_part dataUrl ] |} ];
     model := "google/gemma-3-12b-it";
     temperature := 0;
     max_tokens := 2048;
     top_p := 1;
     seed := 0;
     stream := false |}.

(** The inner [catch]: every error of the API call is re-thrown as a plain
    [Error] with a prefixed message.  [rethrown] is the error it builds. *)
Definition rethrown (apiCallError : Thrown) : Thrown :=
  match apiCallError with
  | APIError st msg =>
      let shown :=
        if truthy_int st
        then match st with Some n => string_of_int n | None => "unknown" end
        else "unknown" in
      Error ("Gravix Layer API error (" ++ shown ++ "): " ++ msg)%string
  | Error msg =>
      Error ("Network or SDK error during API call: " ++ msg)%string
  | NotAnError =>
      Error "An unexpected error occurred during the API call."
  end.

(** The outer [catch]. *)
Definition final_catch (error : Thrown) : NextResponse :=
  match message_of error with
  | Some msg =>
      if includes msg "GRAVIXLAYER_API_KEY" then
        NextResponse_json
          (error_body "GRAVIXLAYER_API_KEY environment variable is not set") (Some 500)
      else if includes msg "Invalid API key" then
        NextResponse_json (error_body "Invalid API key") (Some 401)
      else if includes msg "Rate limit exceeded" then
        NextResponse_json (error_body "Rate limit exceeded") (Some 429)
      else
        NextResponse_json (error_body ("Internal server error: " ++ msg)%string) (Some 500)
  | None =>
      NextResponse_json (error_body "An unknown internal server error occurred.") (Some 500)
  end.

Definition no_text_fallback : string := "No text could be extracted from the image".

(** The inner [try]/[catch] of [POST]: build the client and make the call. *)
Definition call_upstream (env : ProcessEnv) (dataUrl : string)
  : M (option ChatCompletion) :=
  try_catch
    (openai <- createOpenAIClient env ;;
     let params := request_params dataUrl in
     call (UpstreamCall openai params) (chat_completions_create openai params))
    (fun apiCallError => throw (rethrown apiCallError)).

(** The end of [POST]: the validity test on the completion and the
    response built from it. *)
Definition completion_response (completion : option ChatCompletion)
  : NextResponse :=
  match completion with
  | Some {| choices := Some ({| message := Some msg |} :: _) |} =>
      let extractedText :=
        if truthy_string (message_content msg)
        then match message_content msg with
             | Some s => s
             | None => no_text_fallback
             end
        else no_text_fallback in
      NextResponse_json (text_body extractedText) None
  | _ =>
      NextResponse_json
        (error_body "Unexpected response structure from Gravix Layer API")
        (Some 500)
  end.

Definition POST (env : ProcessEnv) (request : NextRequest) : M NextResponse :=
  try_catch
    (let gravixApiKey := GRAVIXLAYER_API_KEY env in
     if negb (truthy_string gravixApiKey) then
       ret (NextResponse_json
              (error_body "GRAVIXLAYER_API_KEY environment variable is not set")
              (Some 500))
     else
       formData <- lift (formData request) ;;
       let image := FormData_get formData "image" in
       if negb (truthy_entry image) then
         ret (NextResponse_json (error_body "No image file provided") (Some 400))
       else
         bytes <- lift (arrayBuffer image) ;;
         let originalBuffer := bytes in
         processedBuffer <- processImageForOCR originalBuffer ;;
         let dataUrl := dataUrl_of processedBuffer in
         completion <- call_upstream env dataUrl ;;
         ret (completion_response completion))
    (fun error => ret (final_catch error)).

End Handler.

End Route.

(* ===================================================================== *)
(** * app/page.tsx: the upload guard *)
(* ===================================================================== *)

Module Page.
Import Js Next.

(** The state of a promise when nothing more will happen to it. *)
Inductive Promise (A : Type) : Type :=
| resolved (a : A)
| rejected (e : Thrown)
| pending.
Arguments resolved {A} a.
Arguments rejected {A} e.
Arguments pending {A}.

(** The browser, as far as [processFile] depends on it.
    [resizeImageForDisplay(file)] loads the file into an [Image], draws it
    on a canvas in [img.onload] and resolves there with a data URL; it sets
    no [onerror], so for a file the browser cannot load the promise stays
    pending.  It rejects only if its executor throws. *)
Class Browser : Type := {
  createObjectURL : File -> string;
  resizeImageForDisplay : File -> Promise string
}.

(** The React state that [processFile] and [handleOCR] write, and the
    requests posted to [/api/ocr]. *)
Record PageState : Type := {
  selectedFile : option File;
  previewUrl : option string;
  resizedPreviewUrl : option string;
  error : option string;
  extractedText : string;
  processingTime : option Z;
  isLoading : bool;
  posted : list NextRequest
}.

(** The request built by [handleOCR]: form data with the single field
    [image], holding the file. *)
Definition ocr_request (file : File) : NextRequest :=
  {| formData := Normal [("image", entry_file file)] |}.

(** [handleOCR(file)] up to and including the [fetch]. *)
Definition handleOCR (file : File) (st : PageState) : PageState :=
  {| selectedFile := selectedFile st;
     previewUrl := previewUrl st;
     resizedPreviewUrl := resizedPreviewUrl st;
     error := None;
     extractedText := "";
     processingTime := None;
     isLoading := true;
     posted := posted st ++ [ocr_request file] |}.

Definition setError (msg : string) (st : PageState) : PageState :=
  {| selectedFile := selectedFile st;
     previewUrl := previewUrl st;
     resizedPreviewUrl := resizedPreviewUrl st;
     error := Some msg;
     extractedText := extractedText st;
     processingTime := processingTime st;
     isLoading := isLoading st;
     posted := posted st |}.

Definition setResizedPreviewUrl (url : string) (st : PageState) : PageState :=
  {| selectedFile := selectedFile st;
     previewUrl := previewUrl st;
     resizedPreviewUrl := Some url;
     error := error st;
     extractedText := extractedText st;
     processingTime := processingTime st;
     isLoading := isLoading st;
     posted := posted st |}.

Section WithBrowser.

Context {browser : Browser}.

(** [processFile] awaits the preview before it starts the OCR: while that
    promise is pending nothing after the [await] runs. *)
Definition processFile (file : File) (st : PageState) : PageState :=
  if startsWith (type file) "image/" then
    if size file >? 10 * 1024 * 1024 then
      setError "File must be under 10MB" st
    else
      let url := createObjectURL file in
      let st :=
        {| selectedFile := Some file;
           previewUrl := Some url;
           resizedPreviewUrl := resizedPreviewUrl st;
           error := None;
           extractedText := "";
           processingTime := None;
           isLoading := isLoading st;
           posted := posted st |} in
      match resizeImageForDisplay file with
      | resolved resizedUrl => handleOCR file (setResizedPreviewUrl resizedUrl st)
      | rejected _ => handleOCR file (setResizedPreviewUrl url st)
      | pending => st
      end
  else
    setError "Please select an image file" st.

End WithBrowser.

End Page.

(* ===================================================================== *)
(** * Image formats, and stand-ins for the two libraries *)
(* ===================================================================== *)

Module Fixtures.
Import Js SharpApi OpenAIApi Eff Next.

(** The eight-byte PNG signature. *)
Definition png_signature : Buffer :=
  [x89; x50; x4e; x47; x0d; x0a; x1a; x0a].

Fixpoint has_prefix (p b : Buffer) : bool :=
  match p, b with
  | [], _ => true
  | x :: p', y :: b' => Byte.eqb x y && has_prefix p' b'
  | _ :: _, [] => false
  end.

(** The bytes are PNG-encoded, as far as the signature tells. *)
Definition isPNG (b : Buffer) : bool := has_prefix png_signature b.

(** The MIME type an image data URL declares: the text between [data:] and
    the first semicolon. *)
Fixpoint strip_prefix (p s : string) : option string :=
  match p, s with
  | EmptyString, _ => Some s
  | String c p', String d s' =>
      if Ascii.eqb c d then strip_prefix p' s' else None
  | String _ _, EmptyString => None
  end.

Fixpoint up_to_semicolon (s : string) : string :=
  match s with
  | EmptyString => ""
  | String c s' => if Ascii.eqb c ";" then "" else String c (up_to_semicolon s')
  end.

Definition declared_mime (url : string) : option string :=
  option_map up_to_semicolon (strip_prefix "data:" url).

(** The base64 payload of a data URL: the text after the first comma. *)
Fixpoint data_payload (url : string) : string :=
  match url with
  | EmptyString => ""
  | String c s' => if Ascii.eqb c "," then s' else data_payload s'
  end.

(** The image URLs a request carries. *)
Definition image_urls (p : ChatCompletionCreateParams) : list string :=
  flat_map (fun m => flat_map (fun part => match part with
                                        | image_url_part u => [u]
                                        | text_part _ => []
                                        end) (content m))
           (messages p).

(** A stand-in for sharp.  A pipeline object remembers its input and the
    options set on it; [decode] tells which inputs are images and gives
    their dimensions; the encoder writes a PNG signature followed by the
    input.  Inputs that do not decode make [metadata] and [toBuffer]
    throw. *)
Record StubPipeline : Type := {
  stub_input : Buffer;
  stub_options : list SharpCall
}.

Definition stub_decode_error : Thrown :=
  Error "Input buffer contains unsupported image format".

Definition stub_add (c : SharpCall) (s : StubPipeline) : Outcome StubPipeline :=
  Normal {| stub_input := stub_input s; stub_options := stub_options s ++ [c] |}.

Definition stubSharp (decode : Buffer -> option (Z * Z)) : SharpLib :=
  {| Sharp := StubPipeline;
     sharp := fun b => Normal {| stub_input := b; stub_options := [] |};
     metadata := fun s =>
       match decode (stub_input s) with
       | Some (w, h) =>
           Normal {| width := Some w; height := Some h; format := Some "png" |}
       | None => Throws stub_decode_error
       end;
     grayscale := stub_add call_grayscale;
     normalize := stub_add call_normalize;
     resize := fun o => stub_add (call_resize o);
     sharpen := fun o => stub_add (call_sharpen o);
     gamma := fun g => stub_add (call_gamma g);
     png := fun o => stub_add (call_png o);
     toBuffer := fun s =>
       match decode (stub_input s) with
       | Some _ => Normal (png_signature ++ stub_input s)
       | None => Throws stub_decode_error
       end |}.

(** Every input that carries the PNG signature is a 640 x 480 image; nothing
    else decodes. *)
Definition decode_png_640x480 (b : Buffer) : option (Z * Z) :=
  if isPNG b then Some (640, 480) else None.

(** The same inputs read as 1000 x 500 images. *)
Definition decode_png_1000x500 (b : Buffer) : option (Z * Z) :=
  if isPNG b then Some (1000, 500) else None.

(** A stand-in for the SDK: every call has the same outcome. *)
Definition stubSdk (reply : Outcome (option ChatCompletion)) : OpenAISdk :=
  {| chat_completions_create := fun _ _ => reply |}.

Definition completion_with (c : option string) : option ChatCompletion :=
  Some {| choices := Some [ {| message := Some {| message_content := c |} |} ] |}.

Definition sample_env : ProcessEnv :=
  {| GRAVIXLAYER_API_KEY := Some "sk-test" |}.

Definition no_key_env : ProcessEnv :=
  {| GRAVIXLAYER_API_KEY := None |}.

Definition sample_png : File :=
  {| name := "scan.png"; type := "image/png";
     bytes := png_signature ++ bytes_of_string "IHDR" |}.

(** A PDF document: not an image, sharp cannot decode it. *)
Definition sample_pdf : File :=
  {| name := "paper.pdf"; type := "application/pdf";
     bytes := bytes_of_string "%PDF-1.4" |}.

(** A GIF image: an image type outside PNG, JPEG and WebP. *)
Definition sample_gif : File :=
  {| name := "anim.gif"; type := "image/gif";
     bytes := bytes_of_string "GIF89a" |}.

(** A JPEG file cut off after its first four bytes. *)
Definition truncated_jpeg : File :=
  {| name := "photo.jpg"; type := "image/jpeg";
     bytes := [xff; xd8; xff; xe0] |}.

(** A complete 1 x 1 PNG image (70 bytes). *)
Definition pixel_png : File :=
  {| name := "pixel.png"; type := "image/png";
     bytes :=
       [x89; x50; x4e; x47; x0d; x0a; x1a; x0a; x00; x00; x00; x0d; x49; x48;
        x44; x52; x00; x00; x00; x01; x00; x00; x00; x01; x08; x06; x00; x00;
        x00; x1f; x15; xc4; x89; x00; x00; x00; x0d; x49; x44; x41; x54; x78;
        xda; x63; x64; x60; xf8; x5f; x0f; x00; x02; x87; x01; x80; xeb; x47;
        xba; x92; x00; x00; x00; x00; x49; x45; x4e; x44; xae; x42; x60; x82] |}.

(** A stand-in for the browser: it loads the files that carry the PNG
    signature and no others. *)
Definition stubBrowser : Page.Browser :=
  {| Page.createObjectURL := fun f => ("blob:" ++ name f)%string;
     Page.resizeImageForDisplay := fun f =>
       if isPNG (bytes f) then Page.resolved ("data:image/jpeg;base64," ++ name f)%string
       else Page.pending |}.

Definition initial_page : Page.PageState :=
  {| Page.selectedFile := None;
     Page.previewUrl := None;
     Page.resizedPreviewUrl := None;
     Page.error := None;
     Page.extractedText := "";
     Page.processingTime := None;
     Page.isLoading := false;
     Page.posted := [] |}.

Definition request_with (f : File) : NextRequest :=
  {| formData := Normal [("image", entry_file f)] |}.

(** A request whose body is JSON: reading it as form data fails. *)
Definition json_request : NextRequest :=
  {| formData := Throws (Error "Content-Type was not one of multipart/form-data or application/x-www-form-urlencoded") |}.

(** A form whose field [image] is a text, not a file. *)
Definition text_field_request : NextRequest :=
  {| formData := Normal [("image", entry_string "scan.png")] |}.

Definition empty_request : NextRequest :=
  {| formData := Normal [] |}.

End Fixtures.

(* ===================================================================== *)
(** * Notions used in the statements *)
(* ===================================================================== *)

Module Notions.
Import Js SharpApi OpenAIApi Eff Next Route Fixtures.

(** An API credential is configured: the environment variable is set to a
    non-empty string. *)
Definition credential_configured (env : ProcessEnv) : Prop :=
  truthy_string (GRAVIXLAYER_API_KEY env) = true.

(** The request is form data whose field [image] holds the file. *)
Definition attached (request : NextRequest) (image : File) : Prop :=
  exists fd,
    formData request = Normal fd /\
    FormData_get fd "image" = Some (entry_file image).

(** The request is form data with no field [image]. *)
Definition no_image_attached (request : NextRequest) : Prop :=
  exists fd, formData request = Normal fd /\ FormData_get fd "image" = None.

(** The request is form data whose field [image] is absent or an empty
    text: the entry the handler reads is falsy. *)
Definition image_entry_missing (request : NextRequest) : Prop :=
  exists fd,
    formData request = Normal fd /\
    truthy_entry (FormData_get fd "image") = false.

(** The three error responses the claims name. *)
Definition missing_credential_response : NextResponse :=
  {| body := error_body "GRAVIXLAYER_API_KEY environment variable is not set";
     status := 500 |}.

Definition invalid_input_response : NextResponse :=
  {| body := error_body "No image file provided"; status := 400 |}.

Definition malformed_upstream_response : NextResponse :=
  {| body := error_body "Unexpected response structure from Gravix Layer API";
     status := 500 |}.

Definition success_response (text : string) : NextResponse :=
  {| body := text_body text; status := 200 |}.

(** The client built from a configured key. *)
Definition client_for (key : string) : OpenAI :=
  {| apiKey := key; baseURL := "https://api.gravixlayer.com/v1" |}.

(** The choices collection is empty, or the first choice's message content
    is missing (the message itself, or its content). *)
Definition content_missing (c : ChatCompletion) : Prop :=
  choices c = Some [] \/
  exists ch rest,
    choices c = Some (ch :: rest) /\
    (message ch = None \/
     exists msg, message ch = Some msg /\ message_content msg = None).

(** Every image sent upstream is a PNG data URL over PNG bytes. *)
Definition sends_png_only (t : Trace) : Prop :=
  forall client params url,
    In (client, params) (upstream_calls t) ->
    In url (image_urls params) ->
    declared_mime url = Some "image/png" /\
    exists b, url = dataUrl_of b /\ isPNG b = true.

(** The side [x] of an image whose longer side is [longest], after the
    handler's scaling: [Math.round(x * (1000 / longest))]. *)
Definition scaled_side (x longest : Z) : option Z :=
  Math_round (PrimFloat.mul (of_int x) (PrimFloat.div (of_int 1000) (of_int longest))).





(** A computation that only ever appends calls on sharp to the trace. *)
Definition sharp_only {A} (m : M A) : Prop :=
  forall t, exists d, snd (m t) = t ++ d /\ upstream_calls d = [].

End Notions.

(* ===================================================================== *)
(** * app/page.tsx: [handleOCR], from its first statement to its [finally] *)
(* ===================================================================== *)

Module PageOcr.
Import Js Next.

(** A parsed JSON body, as far as the page reads it: the fields [text] and
    [error], each possibly absent. *)
Record Json : Type := {
  json_text : option string;
  json_error : option string
}.

(** What [fetch] resolves to: the status, the [content-type] header, and
    the results of [response.json()] and [response.text()]. *)
Record Response : Type := {
  resp_status : Z;
  content_type : option string;
  json : Outcome Json;
  text : Outcome string
}.

(** [response.ok] *)
Definition ok (r : Response) : bool :=
  (200 <=? resp_status r) && (resp_status r <=? 299).

(** [String.prototype.toLowerCase], on ASCII text. *)
Definition lower_char (c : ascii) : ascii :=
  let n := nat_of_ascii c in
  if (Nat.leb 65 n && Nat.leb n 90)%bool then ascii_of_nat (n + 32) else c.

Fixpoint toLowerCase (s : string) : string :=
  match s with
  | EmptyString => ""
  | String c s' => String (lower_char c) (toLowerCase s')
  end.

(** The React state that one run of [handleOCR] writes.  [extractedText] is
    optional because [setExtractedText(data.text)] stores whatever the body
    holds, [undefined] included. *)
Record OcrState : Type := {
  error : option string;
  extractedText : option string;
  processingTime : option Z;
  isLoading : bool;
  showSetupGuide : bool
}.

Definition setError (v : option string) (st : OcrState) : OcrState :=
  {| error := v; extractedText := extractedText st;
     processingTime := processingTime st; isLoading := isLoading st;
     showSetupGuide := showSetupGuide st |}.

Definition setExtractedText (v : option string) (st : OcrState) : OcrState :=
  {| error := error st; extractedText := v;
     processingTime := processingTime st; isLoading := isLoading st;
     showSetupGuide := showSetupGuide st |}.

Definition setProcessingTime (v : option Z) (st : OcrState) : OcrState :=
  {| error := error st; extractedText := extractedText st;
     processingTime := v; isLoading := isLoading st;
     showSetupGuide := showSetupGuide st |}.

Definition setIsLoading (v : bool) (st : OcrState) : OcrState :=
  {| error := error st; extractedText := extractedText st;
     processingTime := processingTime st; isLoading := v;
     showSetupGuide := showSetupGuide st |}.

Definition setShowSetupGuide (v : bool) (st : OcrState) : OcrState :=
  {| error := error st; extractedText := extractedText st;
     processingTime := processingTime st; isLoading := isLoading st;
     showSetupGuide := v |}.

(** The statements of [handleOCR] before the [try]. *)
Definition handleOCR_begin (st : OcrState) : OcrState :=
  setProcessingTime None
    (setExtractedText (Some "") (setError None (setIsLoading true st))).

(** The error message built from a response that is not [ok]. *)
Definition error_message_of (response : Response) : Outcome string :=
  let contentType := content_type response in
  if truthy_string contentType &&
     match contentType with
     | Some ct => includes ct "application/json"
     | None => false
     end
  then
    match json response with
    | Normal errorData =>
        Normal (if truthy_string (json_error errorData)
                then match json_error errorData with
                     | Some e => e
                     | None => "Processing failed"
                     end
                else "Processing failed")
    | Throws e => Throws e
    end
  else
    match text response with
    | Normal errorMessage =>
        let errorMessage :=
          if Nat.ltb 200 (String.length errorMessage)
          then (String.substring 0 200 errorMessage ++ "...")%string
          else errorMessage in
        Normal
          (if includes (toLowerCase errorMessage) "internal server error" then
             "An internal server error occurred. Please try again later."
           else if includes (toLowerCase errorMessage) "forbidden" then
             "Access forbidden. Check your API key permissions."
           else if includes (toLowerCase errorMessage) "not found" then
             "Resource not found. The API endpoint might be incorrect."
           else errorMessage)
    | Throws e => Throws e
    end.

(** The [try] block: the state it leaves and the value it throws, if any.
    [elapsed] is [endTime - startTime]; [fetched] is the outcome of the
    [fetch]. *)
Definition try_block (elapsed : Z) (fetched : Outcome Response) (st : OcrState)
  : OcrState * option Thrown :=
  match fetched with
  | Throws e => (st, Some e)
  | Normal response =>
      let st := setProcessingTime (Some elapsed) st in
      if negb (ok response) then
        match error_message_of response with
        | Throws e => (st, Some e)
        | Normal errorMessage =>
            let st :=
              if includes errorMessage "API key"
                 || includes errorMessage "environment variable"
                 || includes errorMessage "Invalid API key"
              then setShowSetupGuide true st
              else setShowSetupGuide false st in
            (st, Some (Error errorMessage))
        end
      else
        match json response with
        | Throws e => (st, Some e)
        | Normal data =>
            if truthy_string (json_error data) then
              (st, Some (Error match json_error data with
                               | Some e => e
                               | None => ""
                               end))
            else
              (setShowSetupGuide false (setExtractedText (json_text data) st), None)
        end
  end.

(** [handleOCR] for a given file: the statements before the [try], the
    [try] block, the [catch] and the [finally]. *)
Definition handleOCR_run (elapsed : Z) (fetched : Outcome Response) (st : OcrState)
  : OcrState :=
  let (st, thrown) := try_block elapsed fetched (handleOCR_begin st) in
  let st :=
    match thrown with
    | Some err =>
        let errorMessage :=
          match message_of err with
          | Some m => m
          | None => "Failed to extract text"
          end in
        setProcessingTime None (setError (Some errorMessage) st)
    | None => st
    end in
  setIsLoading false st.

(** The response the page receives when the route handler answers [r]:
    [NextResponse.json] sends the object as JSON with content type
    [application/json]; [raw] is the body text. *)
Definition http_reply (r : NextResponse) (raw : string) : Response :=
  {| resp_status := status r;
     content_type := Some "application/json";
     json := Normal match body r with
                    | text_body s => {| json_text := Some s; json_error := None |}
                    | error_body e => {| json_text := None; json_error := Some e |}
                    end;
     text := Normal raw |}.

Definition idle : OcrState :=
  {| error := None; extractedText := Some ""; processingTime := None;
     isLoading := false; showSetupGuide := false |}.

End PageOcr.

(* ===================================================================== *)
(** * The OpenAI SDK beneath [chat.completions.create]: HTTP requests and
      retries *)
(* ===================================================================== *)

Module SdkTransport.
Import Js OpenAIApi Eff.

(** What one HTTP request to the chat-completions endpoint ends in. *)
Inductive HttpOutcome : Type :=
| http_ok (completion : option ChatCompletion)
| http_error (status : Z) (message : string)
| connection_error (message : string).

(** The network: the outcome of the [n]-th HTTP request made for a call. *)
Definition Transport : Type :=
  OpenAI -> ChatCompletionCreateParams -> nat -> HttpOutcome.

(** The SDK's retry policy: how many times a failed request is sent again
    when the client was built without [maxRetries], and which failures
    qualify. *)
Record RetryPolicy : Type := {
  default_max_retries : nat;
  should_retry : HttpOutcome -> bool
}.

(** The policy the openai package documents: two retries; connection
    errors, 408, 409, 429 and statuses from 500 up are retried. *)
Definition openai_defaults : RetryPolicy :=
  {| default_max_retries := 2;
     should_retry := fun o =>
       match o with
       | http_ok _ => false
       | http_error st _ => (st =? 408) || (st =? 409) || (st =? 429) || (500 <=? st)
       | connection_error _ => true
       end |}.

Section WithTransport.

Variables (policy : RetryPolicy) (transport : Transport).

(** The requests of one call, from the [n]-th on, with [retries] retries
    left: how many requests have been made in all, and the last outcome. *)
Fixpoint send (client : OpenAI) (params : ChatCompletionCreateParams)
         (n retries : nat) : nat * HttpOutcome :=
  let outcome := transport client params n in
  match outcome, retries with
  | http_ok _, _ => (S n, outcome)
  | _, O => (S n, outcome)
  | _, S retries' =>
      if should_retry policy outcome then send client params (S n) retries'
      else (S n, outcome)
  end.

(** The handler builds its client from [apiKey] and [baseURL] alone, so the
    policy's default number of retries applies to every call. *)
Definition run_call (client : OpenAI) (params : ChatCompletionCreateParams)
  : nat * HttpOutcome :=
  send client params 0 (default_max_retries policy).

(** [chat.completions.create] over the transport: the completion of the
    last request, or its failure as an [APIError] (a connection error has
    no status). *)
Definition create (client : OpenAI) (params : ChatCompletionCreateParams)
  : Outcome (option ChatCompletion) :=
  match snd (run_call client params) with
  | http_ok c => Normal c
  | http_error st msg => Throws (APIError (Some st) msg)
  | connection_error msg => Throws (APIError None msg)
  end.

Definition sdk_over : OpenAISdk :=
  {| chat_completions_create := create |}.

(** The HTTP requests that a list of calls amounts to. *)
Fixpoint http_requests (calls : list (OpenAI * ChatCompletionCreateParams)) : nat :=
  match calls with
  | [] => 0
  | (client, params) :: calls' =>
      (fst (run_call client params) + http_requests calls')%nat
  end.

End WithTransport.

(** A network on which every request is answered 429. *)
Definition always_rate_limited : Transport :=
  fun _ _ _ => http_error 429 "Rate limit exceeded".

(** A network on which every request is answered with the same text. *)
Definition always_answers (text : string) : Transport :=
  fun _ _ _ =>
    http_ok (Some {| choices :=
                       Some [ {| message := Some {| message_content := Some text |} |} ] |}).

End SdkTransport.

Module MoreNotions.
Import Js SharpApi OpenAIApi Eff Next Route.

(** The handler made its upstream call on this request, and the outcome of
    that call was [o]. *)
Definition upstream_result {sharpLib : SharpLib} {sdk : OpenAISdk}
           (env : ProcessEnv) (request : NextRequest) (t : Trace)
           (o : Outcome (option ChatCompletion)) : Prop :=
  exists call,
    upstream_calls (snd (POST env request t)) = upstream_calls t ++ [call] /\
    chat_completions_create (fst call) (snd call) = o.

(** The message carries none of the three phrases the outer catch of the
    handler looks for. *)
Definition plain_message (m : string) : Prop :=
  includes m "GRAVIXLAYER_API_KEY" = false /\
  includes m "Invalid API key" = false /\
  includes m "Rate limit exceeded" = false.

(** A stand-in for sharp whose [metadata] is given and whose other methods
    all succeed. *)
Definition stubSharp_with (meta : Buffer -> Outcome Metadata) : SharpLib :=
  {| Sharp := Fixtures.StubPipeline;
     sharp := fun b => Normal {| Fixtures.stub_input := b; Fixtures.stub_options := [] |};
     metadata := fun s => meta (Fixtures.stub_input s);
     grayscale := Fixtures.stub_add call_grayscale;
     normalize := Fixtures.stub_add call_normalize;
     resize := fun o => Fixtures.stub_add (call_resize o);
     sharpen := fun o => Fixtures.stub_add (call_sharpen o);
     gamma := fun g => Fixtures.stub_add (call_gamma g);
     png := fun o => Fixtures.stub_add (call_png o);
     toBuffer := fun s => Normal (Fixtures.png_signature ++ Fixtures.stub_input s) |}.

End MoreNotions.

(* ===================================================================== *)
(** * Facts about traces and computations *)
(* ===================================================================== *)

Import Js SharpApi OpenAIApi Eff Next Route Fixtures Notions.

(** Case analysis on the next scrutinee in a run of the pipeline. *)
Ltac next_outcome H :=
  match type of H with
  | context [match ?o with _ => _ end] =>
      let E := fresh "E" in
      destruct o eqn:E; cbv beta iota zeta in H; try discriminate H
  end.

(** ** The built-ins on sample values *)

Example base64_three_bytes : base64 (bytes_of_string "Man") = "TWFu".
Proof. reflexivity. Qed.

Example base64_padding :
  base64 (bytes_of_string "Ma") = "TWE=" /\ base64 (bytes_of_string "M") = "TQ==".
Proof. split; reflexivity. Qed.

Example Math_round_ties_go_up :
  Math_round 2.5%float = Some 3 /\ Math_round (-2.5)%float = Some (-2) /\
  Math_round 0.49999999999999994%float = Some 0.
Proof. vm_compute. repeat split. Qed.

(** 19 * 1000 / 304 is 62.5 exactly; computed in binary64 as the handler
    does, the product falls just below and rounds to 62. *)
Example scaled_side_is_binary64 : scaled_side 19 304 = Some 62.
Proof. vm_compute. reflexivity. Qed.

Example includes_finds_substring :
  includes "Network or SDK error during API call: GRAVIXLAYER_API_KEY missing"
           "GRAVIXLAYER_API_KEY" = true /\
  includes "Rate limit" "Rate limit exceeded" = false.
Proof. split; reflexivity. Qed.

Lemma upstream_calls_app (t d : Trace) :
  upstream_calls (t ++ d) = upstream_calls t ++ upstream_calls d.
Proof.
  induction t as [|[c|cl p] t IH]; simpl; auto.
  now rewrite IH.
Qed.

Lemma resize_calls_app (t d : Trace) :
  resize_calls (t ++ d) = resize_calls t ++ resize_calls d.
Proof.
  induction t as [|[c|cl p] t IH]; simpl; auto.
  destruct c; simpl; auto. now rewrite IH.
Qed.

Lemma sharp_only_ret {A} (a : A) : sharp_only (ret a).
Proof. intro t. exists []. simpl. now rewrite app_nil_r. Qed.

Lemma sharp_only_call {A} (c : SharpCall) (o : Outcome A) :
  sharp_only (call (SharpEvent c) o).
Proof. intro t. now exists [SharpEvent c]. Qed.

Lemma sharp_only_bind {A B} (m : M A) (k : A -> M B) :
  sharp_only m -> (forall a, sharp_only (k a)) -> sharp_only (bind m k).
Proof.
  intros Hm Hk t. unfold bind.
  destruct (Hm t) as [d1 [E1 U1]].
  destruct (m t) as [[a|e] t1]; simpl in E1; subst t1.
  - destruct (Hk a (t ++ d1)) as [d2 [E2 U2]].
    exists (d1 ++ d2). rewrite E2, app_assoc, upstream_calls_app, U1, U2. auto.
  - now exists d1.
Qed.

Lemma sharp_only_try_catch {A} (m : M A) (h : Thrown -> M A) :
  sharp_only m -> (forall e, sharp_only (h e)) -> sharp_only (try_catch m h).
Proof.
  intros Hm Hh t. unfold try_catch.
  destruct (Hm t) as [d1 [E1 U1]].
  destruct (m t) as [[a|e] t1]; simpl in E1; subst t1.
  - now exists d1.
  - destruct (Hh e (t ++ d1)) as [d2 [E2 U2]].
    exists (d1 ++ d2). rewrite E2, app_assoc, upstream_calls_app, U1, U2. auto.
Qed.

Create HintDb sharp_only.
#[local] Hint Resolve sharp_only_ret sharp_only_call : sharp_only.

Section PreprocessorFacts.

Context {sharpLib : SharpLib}.

Lemma preprocessing_steps_sharp_only (b : Buffer) :
  sharp_only (preprocessing_steps b).
Proof.
  unfold preprocessing_steps.
  repeat (apply sharp_only_bind; [auto with sharp_only | intro]).
  - repeat match goal with
           | |- sharp_only (match ?x with _ => _ end) => destruct x
           end; auto with sharp_only.
  - repeat (apply sharp_only_bind; [auto with sharp_only | intro]).
    auto with sharp_only.
Qed.

Lemma processImageForOCR_sharp_only (b : Buffer) :
  sharp_only (processImageForOCR b).
Proof.
  apply sharp_only_try_catch.
  - apply preprocessing_steps_sharp_only.
  - intro. apply sharp_only_ret.
Qed.

(** The preprocessor always returns: the result of the steps when they
    succeed, the input otherwise. *)
Lemma processImageForOCR_cases (b : Buffer) (t : Trace) :
  (exists out t', preprocessing_steps b t = (Normal out, t') /\
                  processImageForOCR b t = (Normal out, t')) \/
  (exists e t', preprocessing_steps b t = (Throws e, t') /\
                processImageForOCR b t = (Normal b, t')).
Proof.
  unfold processImageForOCR, try_catch.
  destruct (preprocessing_steps b t) as [[out|e] t'].
  - left. now exists out, t'.
  - right. now exists e, t'.
Qed.

Lemma processImageForOCR_quiet (b : Buffer) (t : Trace) :
  upstream_calls (snd (processImageForOCR b t)) = upstream_calls t.
Proof.
  destruct (processImageForOCR_sharp_only b t) as [d [E U]].
  now rewrite E, upstream_calls_app, U, app_nil_r.
Qed.

End PreprocessorFacts.

(** ** The scaling arithmetic *)





(* ===================================================================== *)
(** * Facts about the handler *)
(* ===================================================================== *)

Section HandlerFacts.

Context {sharpLib : SharpLib} {sdk : OpenAISdk}.

Lemma credential_configured_key (env : ProcessEnv) :
  credential_configured env ->
  exists key, GRAVIXLAYER_API_KEY env = Some key /\ key <> "".
Proof.
  unfold credential_configured.
  destruct (GRAVIXLAYER_API_KEY env) as [[|c k]|]; simpl; try discriminate.
  intros _. exists (String c k). split; [reflexivity | discriminate].
Qed.

Lemma createOpenAIClient_configured (env : ProcessEnv) (key : string) (t : Trace) :
  GRAVIXLAYER_API_KEY env = Some key -> key <> "" ->
  createOpenAIClient env t = (Normal (client_for key), t).
Proof.
  intros E N. unfold createOpenAIClient. rewrite E.
  destruct key; [congruence | reflexivity].
Qed.

(** With a configured key the inner block makes exactly one call and
    re-throws whatever the call throws. *)
Lemma call_upstream_configured (env : ProcessEnv) (key url : string) (t : Trace) :
  GRAVIXLAYER_API_KEY env = Some key -> key <> "" ->
  call_upstream env url t =
  (match chat_completions_create (client_for key) (request_params url) with
   | Normal c => Normal c
   | Throws e => Throws (rethrown e)
   end,
   t ++ [UpstreamCall (client_for key) (request_params url)]).
Proof.
  intros E N. unfold call_upstream, try_catch, bind.
  rewrite (createOpenAIClient_configured env key t E N).
  unfold call, throw.
  destruct (chat_completions_create _ _); reflexivity.
Qed.

(** A request that passes both guards is preprocessed, sent upstream once
    and answered from the outcome of that call alone. *)
Lemma POST_upstream_stage (env : ProcessEnv) (request : NextRequest)
      (image : File) (key : string) (processed : Buffer) (t t1 : Trace) :
  GRAVIXLAYER_API_KEY env = Some key -> key <> "" ->
  attached request image ->
  processImageForOCR (bytes image) t = (Normal processed, t1) ->
  POST env request t =
  (Normal
     match chat_completions_create (client_for key)
                                   (request_params (dataUrl_of processed)) with
     | Normal c => completion_response c
     | Throws e => final_catch (rethrown e)
     end,
   t1 ++ [UpstreamCall (client_for key) (request_params (dataUrl_of processed))]).
Proof.
  intros E N [fd [Hfd Himg]] Hpre.
  unfold POST, try_catch, bind, lift. rewrite E.
  assert (truthy_string (Some key) = true) as ->
    by (destruct key; [congruence | reflexivity]).
  cbn [negb]. cbv beta iota zeta. rewrite Hfd. cbv beta iota zeta.
  rewrite Himg. cbn [truthy_entry negb arrayBuffer]. cbv beta iota zeta.
  rewrite Hpre.
  rewrite (call_upstream_configured env key _ t1 E N).
  destruct (chat_completions_create _ _); reflexivity.
Qed.

Lemma POST_missing_credential (env : ProcessEnv) (request : NextRequest) (t : Trace) :
  truthy_string (GRAVIXLAYER_API_KEY env) = false ->
  POST env request t = (Normal missing_credential_response, t).
Proof.
  intros F. unfold POST, try_catch. rewrite F. reflexivity.
Qed.

Lemma POST_no_image (env : ProcessEnv) (request : NextRequest) (t : Trace) :
  credential_configured env ->
  no_image_attached request ->
  POST env request t = (Normal invalid_input_response, t).
Proof.
  intros C [fd [Hfd Himg]]. unfold POST, try_catch, bind, lift.
  rewrite C. cbn [negb]. cbv beta iota zeta. rewrite Hfd. cbv beta iota zeta.
  rewrite Himg. reflexivity.
Qed.

(** The same when the entry is an empty text. *)
Lemma POST_entry_missing (env : ProcessEnv) (request : NextRequest) (t : Trace) :
  credential_configured env ->
  image_entry_missing request ->
  POST env request t = (Normal invalid_input_response, t).
Proof.
  intros C [fd [Hfd Himg]]. unfold POST, try_catch, bind, lift.
  rewrite C. cbn [negb]. cbv beta iota zeta. rewrite Hfd. cbv beta iota zeta.
  rewrite Himg. reflexivity.
Qed.

(** A non-empty text in the field [image] passes the test for presence and
    fails at [arrayBuffer]; the outer catch answers. *)
Lemma POST_text_field (env : ProcessEnv) (request : NextRequest)
      (fd : FormData) (text : string) (t : Trace) :
  credential_configured env ->
  formData request = Normal fd ->
  FormData_get fd "image" = Some (entry_string text) -> text <> "" ->
  POST env request t =
  (Normal (final_catch (Error "image.arrayBuffer is not a function")), t).
Proof.
  intros C Hfd Himg N. unfold POST, try_catch, bind, lift.
  rewrite C. cbn [negb]. cbv beta iota zeta. rewrite Hfd. cbv beta iota zeta.
  rewrite Himg. cbn [truthy_entry arrayBuffer].
  assert (truthy_string (Some text) = true) as ->
    by (destruct text; [congruence | reflexivity]).
  reflexivity.
Qed.

(** When reading the form data fails, the outer catch answers. *)
Lemma POST_formData_throws (env : ProcessEnv) (request : NextRequest)
      (e : Thrown) (t : Trace) :
  credential_configured env ->
  formData request = Throws e ->
  POST env request t = (Normal (final_catch e), t).
Proof.
  intros C Hfd. unfold POST, try_catch, bind, lift.
  rewrite C. cbn [negb]. cbv beta iota zeta. rewrite Hfd. reflexivity.
Qed.

(** With the credential configured a request is of one of four kinds. *)
Lemma POST_request_kinds (env : ProcessEnv) (request : NextRequest) (t : Trace) :
  credential_configured env ->
  (exists e, formData request = Throws e /\
             POST env request t = (Normal (final_catch e), t)) \/
  (image_entry_missing request /\
   POST env request t = (Normal invalid_input_response, t)) \/
  (exists fd text,
      formData request = Normal fd /\
      FormData_get fd "image" = Some (entry_string text) /\ text <> "" /\
      POST env request t =
      (Normal (final_catch (Error "image.arrayBuffer is not a function")), t)) \/
  (exists image, attached request image).
Proof.
  intros C. destruct (formData request) as [fd|e] eqn:Hfd.
  - destruct (FormData_get fd "image") as [[image|text]|] eqn:Himg.
    + right. right. right. exists image, fd. auto.
    + destruct text as [|c text].
      * right. left.
        assert (image_entry_missing request) as A
            by (exists fd; split; [exact Hfd | now rewrite Himg]).
        split; [exact A | now apply POST_entry_missing].
      * right. right. left. exists fd, (String c text).
        repeat split; auto; [discriminate|].
        apply (POST_text_field env request fd (String c text) t C Hfd Himg).
        discriminate.
    + right. left.
      assert (image_entry_missing request) as A
          by (exists fd; split; [exact Hfd | now rewrite Himg]).
      split; [exact A | now apply POST_entry_missing].
  - left. exists e. split; [reflexivity|]. now apply POST_formData_throws.
Qed.

End HandlerFacts.

(* ===================================================================== *)
(** * The preprocessor never throws (C1) *)
(* ===================================================================== *)

(** C1.  [processImageForOCR] returns normally on every input buffer,
    whatever the imaging library does.  When any step of the pipeline
    throws, the value returned is the input buffer itself.  The handler then
    carries on with that buffer: its response is computed from the outcome of
    the upstream call alone, so the preprocessing error never reaches the
    client. *)
Theorem processImageForOCR_never_throws
        {sharpLib : SharpLib} {sdk : OpenAISdk}
        (imageBuffer : Buffer) (t : Trace) :
  (exists out t', processImageForOCR imageBuffer t = (Normal out, t')) /\
  (forall e t',
      preprocessing_steps imageBuffer t = (Throws e, t') ->
      processImageForOCR imageBuffer t = (Normal imageBuffer, t')) /\
  (forall env request image key e t',
      GRAVIXLAYER_API_KEY env = Some key -> key <> "" ->
      attached request image ->
      bytes image = imageBuffer ->
      preprocessing_steps imageBuffer t = (Throws e, t') ->
      let params := request_params (dataUrl_of imageBuffer) in
      POST env request t =
      (Normal match chat_completions_create (client_for key) params with
              | Normal c => completion_response c
              | Throws e' => final_catch (rethrown e')
              end,
       t' ++ [UpstreamCall (client_for key) params])).
Proof.
  assert (forall e t',
             preprocessing_steps imageBuffer t = (Throws e, t') ->
             processImageForOCR imageBuffer t = (Normal imageBuffer, t')) as Fallback.
  { intros e t' H. unfold processImageForOCR, try_catch. now rewrite H. }
  repeat split.
  - destruct (processImageForOCR_cases imageBuffer t)
      as [(out & t' & _ & H) | (e & t' & _ & H)]; eauto.
  - exact Fallback.
  - intros env request image key e t' E N A B H params. subst imageBuffer.
    apply (POST_upstream_stage env request image key (bytes image) t t'); auto.
    now apply (Fallback e).
Qed.

(** A PDF document sent as the image: decoding fails at [metadata], the
    input comes back unchanged. *)
Lemma pdf_input_falls_back :
  @processImageForOCR (stubSharp decode_png_640x480) (bytes sample_pdf) [] =
  (Normal (bytes sample_pdf),
   [SharpEvent (call_sharp (bytes sample_pdf)); SharpEvent call_metadata]).
Proof.
  apply (proj1 (proj2 (@processImageForOCR_never_throws
                         (stubSharp decode_png_640x480)
                         (stubSdk (Normal None))
                         (bytes sample_pdf) []))
               stub_decode_error).
  reflexivity.
Defined.

(* ===================================================================== *)
(** * Guards of the handler (C5, C6, C10) *)
(* ===================================================================== *)

(** C5.  While no API credential is configured (the variable is unset or
    empty), every request is answered with the missing-credential error and
    status 500, and the trace is left as it was: no call is made upstream
    (nor on the imaging library). *)
Theorem missing_credential_fails_fast
        {sharpLib : SharpLib} {sdk : OpenAISdk}
        (env : ProcessEnv) (request : NextRequest) (t : Trace) :
  ~ credential_configured env ->
  POST env request t = (Normal missing_credential_response, t) /\
  status missing_credential_response = 500 /\
  upstream_calls (snd (POST env request t)) = upstream_calls t.
Proof.
  intros NC.
  assert (truthy_string (GRAVIXLAYER_API_KEY env) = false) as F.
  { unfold credential_configured in NC.
    destruct (truthy_string (GRAVIXLAYER_API_KEY env)); congruence. }
  rewrite (POST_missing_credential env request t F). auto.
Qed.

Lemma request_without_key_gets_500 :
  @POST (stubSharp decode_png_640x480) (stubSdk (Normal (completion_with (Some "hello"))))
        no_key_env (request_with sample_png) [] =
  (Normal {| body := error_body "GRAVIXLAYER_API_KEY environment variable is not set";
             status := 500 |}, []).
Proof.
  apply (@missing_credential_fails_fast
           (stubSharp decode_png_640x480)
           (stubSdk (Normal (completion_with (Some "hello"))))
           no_key_env (request_with sample_png) []).
  unfold credential_configured. simpl. discriminate.
Defined.

(** C6, as the code has it.  With the credential configured, a request
    whose form data has no [image] entry, or an empty text under that name,
    is answered with the invalid-input error and status 400.  A request
    whose body cannot be read as form data is answered by the outer catch:
    never with 400, and with 500 and the text of the error when that text
    has none of the three phrases.  In both cases no library is called. *)
Theorem missing_image_is_invalid_input
        {sharpLib : SharpLib} {sdk : OpenAISdk}
        (env : ProcessEnv) (request : NextRequest) (t : Trace) :
  credential_configured env ->
  (image_entry_missing request ->
   POST env request t = (Normal invalid_input_response, t) /\
   status invalid_input_response = 400) /\
  (forall e,
      formData request = Throws e ->
      POST env request t = (Normal (final_catch e), t) /\
      status (final_catch e) <> 400 /\
      (forall m,
          message_of e = Some m -> MoreNotions.plain_message m ->
          final_catch e =
          {| body := error_body ("Internal server error: " ++ m)%string;
             status := 500 |})).
Proof.
  intros C. split.
  - intros M. rewrite (POST_entry_missing env request t C M). auto.
  - intros e F. rewrite (POST_formData_throws env request e t C F).
    split; [reflexivity|]. split.
    + unfold final_catch.
      destruct (message_of e) as [m|]; [|simpl; discriminate].
      repeat match goal with
             | |- context [if ?c then _ else _] => destruct c
             end; simpl; discriminate.
    + intros m M (G & I & L). unfold final_catch. now rewrite M, G, I, L.
Qed.

Lemma empty_form_gets_400 :
  @POST (stubSharp decode_png_640x480) (stubSdk (Normal (completion_with (Some "hello"))))
        sample_env empty_request [] =
  (Normal {| body := error_body "No image file provided"; status := 400 |}, []) /\
  status invalid_input_response = 400.
Proof.
  refine (proj1 (@missing_image_is_invalid_input
                   (stubSharp decode_png_640x480)
                   (stubSdk (Normal (completion_with (Some "hello"))))
                   sample_env empty_request [] _) _).
  - reflexivity.
  - exists []. split; reflexivity.
Defined.

(** The claim as it was stated fails for a request whose body is JSON: no
    image file is attached, and the answer is 500, not 400. *)
Lemma unreadable_body_is_not_a_400 :
  credential_configured sample_env /\
  (forall image, ~ attached json_request image) /\
  @POST (stubSharp decode_png_640x480) (stubSdk (Normal None))
        sample_env json_request [] =
  (Normal {| body := error_body
                       "Internal server error: Content-Type was not one of multipart/form-data or application/x-www-form-urlencoded";
             status := 500 |}, []) /\
  fst (@POST (stubSharp decode_png_640x480) (stubSdk (Normal None))
             sample_env json_request []) <> Normal invalid_input_response.
Proof.
  split; [reflexivity|]. split.
  - intros image (fd & F & _). discriminate F.
  - split; [reflexivity | vm_compute; discriminate].
Qed.

(** A text field named [image] passes the test for presence and is answered
    500 when its bytes are asked for. *)
Example text_field_is_answered_500 :
  @POST (stubSharp decode_png_640x480) (stubSdk (Normal None))
        sample_env text_field_request [] =
  (Normal {| body := error_body
                       "Internal server error: image.arrayBuffer is not a function";
             status := 500 |}, []).
Proof. reflexivity. Qed.

(** C10.  The credential check comes first: a request that lacks both the
    credential and the image gets the missing-credential error (500), not
    the invalid-input error (400). *)
Theorem credential_check_precedes_validation
        {sharpLib : SharpLib} {sdk : OpenAISdk}
        (env : ProcessEnv) (request : NextRequest) (t : Trace) :
  ~ credential_configured env ->
  no_image_attached request ->
  fst (POST env request t) = Normal missing_credential_response /\
  fst (POST env request t) <> Normal invalid_input_response /\
  status missing_credential_response = 500.
Proof.
  intros NC _.
  assert (truthy_string (GRAVIXLAYER_API_KEY env) = false) as F.
  { unfold credential_configured in NC.
    destruct (truthy_string (GRAVIXLAYER_API_KEY env)); congruence. }
  rewrite (POST_missing_credential env request t F). simpl.
  repeat split. discriminate.
Qed.

Lemma no_key_and_no_image_gets_500 :
  fst (@POST (stubSharp decode_png_640x480) (stubSdk (Normal None))
             no_key_env empty_request []) =
  Normal {| body := error_body "GRAVIXLAYER_API_KEY environment variable is not set";
            status := 500 |}.
Proof.
  apply (@credential_check_precedes_validation
           (stubSharp decode_png_640x480) (stubSdk (Normal None))
           no_key_env empty_request []).
  - unfold credential_configured. simpl. discriminate.
  - exists []. split; reflexivity.
Defined.

(* ===================================================================== *)
(** * Reading the completion (C2, C3) *)
(* ===================================================================== *)

Lemma completion_response_status (c : option ChatCompletion) :
  status (completion_response c) = 200 \/ status (completion_response c) = 500.
Proof.
  destruct c as [[[[|[[m|]] rest]|]]|]; simpl; auto.
Qed.

Lemma completion_response_text (c : option ChatCompletion) :
  body (completion_response c) <> text_body "".
Proof.
  destruct c as [[[[|[[[[[|a s]|]]|]] rest]|]]|]; simpl; discriminate.
Qed.

Lemma final_catch_is_error (e : Thrown) :
  (exists msg, body (final_catch e) = error_body msg) /\
  (status (final_catch e) = 500 \/ status (final_catch e) = 401 \/
   status (final_catch e) = 429).
Proof.
  unfold final_catch.
  destruct (message_of e) as [msg|]; [|simpl; eauto].
  repeat match goal with
         | |- context [if ?c then _ else _] => destruct c
         end; simpl; eauto.
Qed.

(** C2, as the code has it.  When the completion is null, its choices are
    missing or empty, or the first choice has no message, the handler
    answers with the unexpected-structure error and status 500.  When the
    first choice's message is there but its content is missing, the handler
    answers 200 with the fallback text.  A success never carries the empty
    text. *)
Theorem malformed_completion_response
        {sharpLib : SharpLib} {sdk : OpenAISdk}
        (env : ProcessEnv) (request : NextRequest) (image : File)
        (key : string) (processed : Buffer) (t t1 : Trace)
        (completion : option ChatCompletion) :
  GRAVIXLAYER_API_KEY env = Some key -> key <> "" ->
  attached request image ->
  processImageForOCR (bytes image) t = (Normal processed, t1) ->
  chat_completions_create (client_for key) (request_params (dataUrl_of processed))
  = Normal completion ->
  ((completion = None \/
    exists c, completion = Some c /\
              (choices c = None \/ choices c = Some [] \/
               exists ch rest, choices c = Some (ch :: rest) /\ message ch = None)) ->
   fst (POST env request t) = Normal malformed_upstream_response) /\
  (forall c ch rest msg,
      completion = Some c -> choices c = Some (ch :: rest) ->
      message ch = Some msg -> message_content msg = None ->
      fst (POST env request t) =
      Normal (success_response "No text could be extracted from the image")) /\
  (forall resp, fst (POST env request t) = Normal resp -> body resp <> text_body "").
Proof.
  intros E N A Hpre Hup.
  rewrite (POST_upstream_stage env request image key processed t t1 E N A Hpre).
  rewrite Hup. cbn [fst].
  repeat split.
  - intros [-> | (c & -> & [Hc | [Hc | (ch & rest & Hc & Hm)]])];
      try reflexivity; destruct c as [cs]; simpl in Hc; subst cs; try reflexivity.
    destruct ch as [m]; simpl in Hm; subst m. reflexivity.
  - intros c ch rest msg -> Hc Hm Hcont.
    destruct c as [cs]; simpl in Hc; subst cs.
    destruct ch as [m]; simpl in Hm; subst m.
    destruct msg as [ct]; simpl in Hcont; subst ct. reflexivity.
  - intros resp H. injection H as <-. apply completion_response_text.
Qed.

Lemma empty_choices_gets_500 :
  fst (@POST (stubSharp decode_png_640x480)
             (stubSdk (Normal (Some {| choices := Some [] |})))
             sample_env (request_with sample_png) []) =
  Normal {| body := error_body "Unexpected response structure from Gravix Layer API";
            status := 500 |}.
Proof.
  refine (proj1 (@malformed_completion_response
                   (stubSharp decode_png_640x480)
                   (stubSdk (Normal (Some {| choices := Some [] |})))
                   sample_env (request_with sample_png) sample_png "sk-test"
                   (png_signature ++ bytes sample_png) [] _
                   (Some {| choices := Some [] |}) _ _ _ _ _) _).
  - reflexivity.
  - discriminate.
  - exists [("image", entry_file sample_png)]. split; reflexivity.
  - vm_compute. reflexivity.
  - reflexivity.
  - right. eexists. split; [reflexivity|]. right. left. reflexivity.
Defined.

(** The claim as it was stated fails when the first choice's message is
    present and its content is null: the response is a success. *)
Lemma missing_content_is_not_an_error :
  let completion :=
    {| choices := Some [ {| message := Some {| message_content := None |} |} ] |} in
  content_missing completion /\
  fst (@POST (stubSharp decode_png_640x480) (stubSdk (Normal (Some completion)))
             sample_env (request_with sample_png) []) =
  Normal {| body := text_body "No text could be extracted from the image";
            status := 200 |} /\
  fst (@POST (stubSharp decode_png_640x480) (stubSdk (Normal (Some completion)))
             sample_env (request_with sample_png) []) <>
  Normal malformed_upstream_response.
Proof.
  cbv zeta. repeat split.
  - right. eexists _, _. split; [reflexivity|]. right. eexists. split; reflexivity.
  - vm_compute. discriminate.
Qed.

(** C3.  When the first choice's message content is present and empty the
    response is a success with the literal fallback text; when it is
    non-empty the response is a success with exactly that content. *)
Theorem extracted_text_or_fallback
        {sharpLib : SharpLib} {sdk : OpenAISdk}
        (env : ProcessEnv) (request : NextRequest) (image : File)
        (key : string) (processed : Buffer) (t t1 : Trace)
        (c : ChatCompletion) (ch : Choice) (rest : list Choice)
        (msg : ChatCompletionMessage) (s : string) :
  GRAVIXLAYER_API_KEY env = Some key -> key <> "" ->
  attached request image ->
  processImageForOCR (bytes image) t = (Normal processed, t1) ->
  chat_completions_create (client_for key) (request_params (dataUrl_of processed))
  = Normal (Some c) ->
  choices c = Some (ch :: rest) ->
  message ch = Some msg ->
  message_content msg = Some s ->
  (s = "" ->
   fst (POST env request t) =
   Normal {| body := text_body "No text could be extracted from the image";
             status := 200 |}) /\
  (s <> "" ->
   fst (POST env request t) = Normal {| body := text_body s; status := 200 |}).
Proof.
  intros E N A Hpre Hup Hc Hm Hs.
  rewrite (POST_upstream_stage env request image key processed t t1 E N A Hpre).
  rewrite Hup. cbn [fst].
  destruct c as [cs]; simpl in Hc; subst cs.
  destruct ch as [m]; simpl in Hm; subst m.
  destruct msg as [ct]; simpl in Hs; subst ct.
  split.
  - intros ->. reflexivity.
  - intros Hne. destruct s; [congruence | reflexivity].
Qed.

Lemma empty_content_gets_fallback_text :
  fst (@POST (stubSharp decode_png_640x480)
             (stubSdk (Normal (completion_with (Some ""))))
             sample_env (request_with sample_png) []) =
  Normal {| body := text_body "No text could be extracted from the image";
            status := 200 |}.
Proof.
  refine (proj1 (@extracted_text_or_fallback
                   (stubSharp decode_png_640x480)
                   (stubSdk (Normal (completion_with (Some ""))))
                   sample_env (request_with sample_png) sample_png "sk-test"
                   (png_signature ++ bytes sample_png) [] _
                   _ _ _ _ "" _ _ _ _ _ _ _ _) _).
  - reflexivity.
  - discriminate.
  - exists [("image", entry_file sample_png)]. split; reflexivity.
  - vm_compute. reflexivity.
  - reflexivity.
  - reflexivity.
  - reflexivity.
  - reflexivity.
  - reflexivity.
Defined.

(* ===================================================================== *)
(** * One upstream call per request (C9) *)
(* ===================================================================== *)

Section UpstreamCalls.

Context {sharpLib : SharpLib} {sdk : OpenAISdk}.

(** What a request that passes both guards leaves in the trace: the calls
    already there, then the single call of this request. *)
Lemma POST_upstream_calls (env : ProcessEnv) (request : NextRequest)
      (image : File) (key : string) (t : Trace) :
  GRAVIXLAYER_API_KEY env = Some key -> key <> "" ->
  attached request image ->
  exists processed,
    fst (processImageForOCR (bytes image) t) = Normal processed /\
    fst (POST env request t) =
    Normal match chat_completions_create
                   (client_for key) (request_params (dataUrl_of processed)) with
           | Normal c => completion_response c
           | Throws e => final_catch (rethrown e)
           end /\
    upstream_calls (snd (POST env request t)) =
    upstream_calls t ++ [(client_for key, request_params (dataUrl_of processed))].
Proof.
  intros E N A.
  pose proof (processImageForOCR_quiet (bytes image) t) as Q.
  destruct (processImageForOCR_cases (bytes image) t)
    as [(out & t1 & _ & H) | (e & t1 & _ & H)].
  - exists out.
    rewrite (POST_upstream_stage env request image key out t t1 E N A H).
    rewrite H in *. cbn [fst snd] in *.
    rewrite upstream_calls_app, Q. auto.
  - exists (bytes image).
    rewrite (POST_upstream_stage env request image key (bytes image) t t1 E N A H).
    rewrite H in *. cbn [fst snd] in *.
    rewrite upstream_calls_app, Q. auto.
Qed.

(** Whatever the request, the handler adds at most one upstream call. *)
Lemma POST_at_most_one_call (env : ProcessEnv) (request : NextRequest) (t : Trace) :
  exists made,
    upstream_calls (snd (POST env request t)) = upstream_calls t ++ made /\
    (List.length made <= 1)%nat.
Proof.
  destruct (truthy_string (GRAVIXLAYER_API_KEY env)) eqn:K.
  - destruct (credential_configured_key env K) as (key & E & N).
    destruct (POST_request_kinds env request t K)
      as [(e & _ & R) | [(_ & R) | [(fd & text & _ & _ & _ & R) | (image & A)]]];
      try (rewrite R; exists []; rewrite app_nil_r; auto).
    destruct (POST_upstream_calls env request image key t E N A)
      as (processed & _ & _ & U).
    eexists. split; [exact U | simpl; lia].
  - rewrite (POST_missing_credential env request t K).
    exists []. rewrite app_nil_r. auto.
Qed.

End UpstreamCalls.

Section HttpRequests.

Import SdkTransport.

Variables (policy : RetryPolicy) (transport : Transport).

(** A call makes at least one HTTP request and at most one more than the
    retries it has left. *)
Lemma send_bounds (client : OpenAI) (params : ChatCompletionCreateParams)
      (retries n : nat) :
  (S n <= fst (send policy transport client params n retries) <= S n + retries)%nat.
Proof.
  revert n. induction retries as [|r IH]; intros n; cbn [send].
  - destruct (transport client params n); cbn [fst]; lia.
  - destruct (transport client params n) eqn:O; cbn [fst]; try lia;
      destruct (should_retry policy _); cbn [fst]; try lia;
      specialize (IH (S n)); lia.
Qed.

(** A first request that succeeds, or fails in a way that is not retried,
    is the only one. *)
Lemma send_once (client : OpenAI) (params : ChatCompletionCreateParams)
      (retries : nat) :
  (exists c, transport client params 0%nat = http_ok c) \/
  should_retry policy (transport client params 0%nat) = false ->
  fst (send policy transport client params 0 retries) = 1%nat.
Proof.
  intros [(c & O) | NR]; destruct retries; cbn [send].
  - now rewrite O.
  - now rewrite O.
  - destruct (transport client params 0%nat); reflexivity.
  - destruct (transport client params 0%nat); try reflexivity;
      now rewrite NR.
Qed.

End HttpRequests.

(** C9, as the code has it.  The handler itself invokes
    [chat.completions.create] at most once per request, and exactly once for
    a request that passes both guards with a file attached; an error thrown
    by that call is turned into the response, the handler has no retry of
    its own.  Beneath that call the SDK's retry policy applies, because the
    client is built without [maxRetries]: the call amounts to at least one
    HTTP request and at most one more than the policy's default number of
    retries, and to exactly one when the first request succeeds or fails in
    a way the policy does not retry. *)
Theorem upstream_attempted_once
        {sharpLib : SharpLib}
        (env : ProcessEnv) (request : NextRequest) (t : Trace) :
  (forall sdk : OpenAISdk,
      (exists made,
          upstream_calls (snd (@POST sharpLib sdk env request t))
          = upstream_calls t ++ made /\
          (List.length made <= 1)%nat) /\
      (forall image,
          credential_configured env -> attached request image ->
          exists call,
            upstream_calls (snd (@POST sharpLib sdk env request t))
            = upstream_calls t ++ [call] /\
            forall e,
              @chat_completions_create sdk (fst call) (snd call) = Throws e ->
              fst (@POST sharpLib sdk env request t)
              = Normal (final_catch (rethrown e)))) /\
  (forall (policy : SdkTransport.RetryPolicy) (transport : SdkTransport.Transport)
          (call : OpenAI * ChatCompletionCreateParams),
      upstream_calls
        (snd (@POST sharpLib (SdkTransport.sdk_over policy transport) env request t))
      = upstream_calls t ++ [call] ->
      (1 <= SdkTransport.http_requests policy transport [call]
       <= 1 + SdkTransport.default_max_retries policy)%nat /\
      ((exists c, transport (fst call) (snd call) 0%nat = SdkTransport.http_ok c) \/
       SdkTransport.should_retry policy (transport (fst call) (snd call) 0%nat) = false ->
       SdkTransport.http_requests policy transport [call] = 1%nat)).
Proof.
  split.
  - intros sdk. split.
    + apply POST_at_most_one_call.
    + intros image C A.
      destruct (credential_configured_key env C) as (key & E & N).
      destruct (POST_upstream_calls env request image key t E N A)
        as (processed & _ & R & U).
      eexists. split; [exact U|].
      cbn [fst snd]. intros e He. rewrite R, He. reflexivity.
  - intros policy transport [client params] _.
    cbn [SdkTransport.http_requests fst snd]. unfold SdkTransport.run_call.
    rewrite Nat.add_0_r. split.
    + pose proof (send_bounds policy transport client params
                              (SdkTransport.default_max_retries policy) 0).
      lia.
    + apply send_once.
Qed.

(** The upstream answers the first request: one call, one HTTP request. *)
Lemma answered_request_is_sent_once :
  (1 <= SdkTransport.http_requests
          SdkTransport.openai_defaults (SdkTransport.always_answers "hello")
          [(client_for "sk-test",
            request_params (dataUrl_of (png_signature ++ bytes sample_png)))]
   <= 1 + SdkTransport.default_max_retries SdkTransport.openai_defaults)%nat /\
  ((exists c,
       SdkTransport.always_answers "hello" (client_for "sk-test")
         (request_params (dataUrl_of (png_signature ++ bytes sample_png))) 0%nat
       = SdkTransport.http_ok c) \/
   SdkTransport.should_retry SdkTransport.openai_defaults
     (SdkTransport.always_answers "hello" (client_for "sk-test")
        (request_params (dataUrl_of (png_signature ++ bytes sample_png))) 0%nat)
   = false ->
   SdkTransport.http_requests
     SdkTransport.openai_defaults (SdkTransport.always_answers "hello")
     [(client_for "sk-test",
       request_params (dataUrl_of (png_signature ++ bytes sample_png)))] = 1%nat).
Proof.
  apply (proj2 (@upstream_attempted_once
                  (stubSharp decode_png_640x480)
                  sample_env (request_with sample_png) [])
               SdkTransport.openai_defaults (SdkTransport.always_answers "hello")
               (client_for "sk-test",
                request_params (dataUrl_of (png_signature ++ bytes sample_png)))).
  vm_compute. reflexivity.
Defined.

(** The claim as it was stated fails when the upstream answers 429: the
    handler makes its one call, and under the SDK's default policy that call
    sends three HTTP requests before the 429 reaches the handler. *)
Lemma rate_limited_request_is_sent_three_times :
  let run :=
    @POST (stubSharp decode_png_640x480)
          (SdkTransport.sdk_over SdkTransport.openai_defaults
                                 SdkTransport.always_rate_limited)
          sample_env (request_with sample_png) [] in
  List.length (upstream_calls (snd run)) = 1%nat /\
  SdkTransport.http_requests SdkTransport.openai_defaults
    SdkTransport.always_rate_limited (upstream_calls (snd run)) = 3%nat /\
  fst run = Normal {| body := error_body "Rate limit exceeded"; status := 429 |}.
Proof. vm_compute. repeat split. Qed.

(* ===================================================================== *)
(** * Size and type limits (C7) *)
(* ===================================================================== *)

(** C7, as the code has it.  The route handler looks at neither the size nor
    the MIME type of the file: with the credential configured, every attached
    file is preprocessed and handed to one call of
    [chat.completions.create], and the answer is never the 400 of invalid
    input.  The limits live in the page: [processFile] refuses a file whose
    type does not start with [image/] and an image of more than 10 MiB, each
    with a message and without posting anything.  Any other file is posted
    once its preview promise settles, and is not posted while that promise
    stays pending. *)
Theorem limits_are_enforced_by_the_page_only
        {sharpLib : SharpLib} {sdk : OpenAISdk} {browser : Page.Browser}
        (env : ProcessEnv) (file : File) (t : Trace) (st : Page.PageState) :
  (forall request,
      credential_configured env -> attached request file ->
      (exists resp, fst (POST env request t) = Normal resp /\ status resp <> 400) /\
      List.length (upstream_calls (snd (POST env request t))) =
      S (List.length (upstream_calls t))) /\
  (startsWith (type file) "image/" = false ->
   Page.processFile file st = Page.setError "Please select an image file" st /\
   Page.posted (Page.processFile file st) = Page.posted st) /\
  (startsWith (type file) "image/" = true -> 10 * 1024 * 1024 < size file ->
   Page.processFile file st = Page.setError "File must be under 10MB" st /\
   Page.posted (Page.processFile file st) = Page.posted st) /\
  (startsWith (type file) "image/" = true -> size file <= 10 * 1024 * 1024 ->
   (Page.resizeImageForDisplay file = Page.pending ->
    Page.posted (Page.processFile file st) = Page.posted st /\
    Page.selectedFile (Page.processFile file st) = Some file) /\
   (Page.resizeImageForDisplay file <> Page.pending ->
    Page.posted (Page.processFile file st)
    = Page.posted st ++ [Page.ocr_request file] /\
    Page.error (Page.processFile file st) = None)).
Proof.
  split; [|split; [|split]].
  - intros request C A.
    destruct (credential_configured_key env C) as (key & E & N).
    destruct (POST_upstream_calls env request file key t E N A)
      as (processed & _ & R & U).
    split.
    + eexists. split; [exact R|].
      destruct (chat_completions_create _ _) as [c|e].
      * destruct (completion_response_status c) as [S|S]; rewrite S; discriminate.
      * destruct (final_catch_is_error (rethrown e)) as [_ [S|[S|S]]];
          rewrite S; discriminate.
    + rewrite U, length_app. simpl. lia.
  - intros NotImage. unfold Page.processFile. rewrite NotImage. split; reflexivity.
  - intros Himg Big. unfold Page.processFile. rewrite Himg.
    assert ((size file >? 10 * 1024 * 1024) = true) as ->
        by (apply Z.gtb_lt; lia).
    split; reflexivity.
  - intros Himg Small. unfold Page.processFile. rewrite Himg.
    assert ((size file >? 10 * 1024 * 1024) = false) as ->
        by (rewrite Z.gtb_ltb; apply Z.ltb_ge; lia).
    cbv zeta. split.
    + intros ->. split; reflexivity.
    + intros Settled.
      destruct (Page.resizeImageForDisplay file); [| |congruence];
        split; reflexivity.
Qed.

(** A real 1 x 1 PNG that the browser loads is posted. *)
Lemma page_posts_small_png :
  Page.posted (@Page.processFile stubBrowser pixel_png initial_page) =
  Page.posted initial_page ++ [Page.ocr_request pixel_png] /\
  Page.error (@Page.processFile stubBrowser pixel_png initial_page) = None.
Proof.
  refine (proj2 (proj2 (proj2 (proj2 (@limits_are_enforced_by_the_page_only
                                        (stubSharp decode_png_640x480)
                                        (stubSdk (Normal None)) stubBrowser
                                        sample_env pixel_png [] initial_page)))
                       _ _) _).
  - reflexivity.
  - vm_compute. discriminate.
  - vm_compute. discriminate.
Defined.

(** The claim as it was stated fails at the handler for a GIF image: the
    request is answered 200. *)
Lemma gif_is_not_rejected :
  type sample_gif = "image/gif" /\
  attached (request_with sample_gif) sample_gif /\
  fst (@POST (stubSharp decode_png_640x480)
             (stubSdk (Normal (completion_with (Some "hello"))))
             sample_env (request_with sample_gif) []) =
  Normal {| body := text_body "hello"; status := 200 |}.
Proof.
  split; [reflexivity|]. split; [|reflexivity].
  exists [("image", entry_file sample_gif)]. split; reflexivity.
Qed.

(* ===================================================================== *)
(** * What is sent upstream (C8) *)
(* ===================================================================== *)

Lemma has_prefix_app (p b : Buffer) :
  has_prefix p b = true -> exists rest, b = p ++ rest.
Proof.
  revert b. induction p as [|x p IH]; intros b H.
  - now exists b.
  - destruct b as [|y b]; [discriminate|]. simpl in H.
    apply andb_prop in H. destruct H as [H1 H2].
    apply Byte.byte_dec_bl in H1. subst y.
    destruct (IH b H2) as [rest ->]. now exists rest.
Qed.

(** The data URL of PNG bytes starts with the base64 of the signature's
    first three bytes. *)
Lemma dataUrl_of_png (b : Buffer) :
  isPNG b = true ->
  exists tail, dataUrl_of b = ("data:image/png;base64,iVBO" ++ tail)%string.
Proof.
  intros H. apply has_prefix_app in H. destruct H as [rest ->].
  eexists. unfold dataUrl_of, mimeType, png_signature.
  cbn [app base64]. reflexivity.
Qed.

Lemma declared_mime_dataUrl_of (b : Buffer) :
  declared_mime (dataUrl_of b) = Some "image/png".
Proof. reflexivity. Qed.

Lemma data_payload_dataUrl_of (b : Buffer) :
  data_payload (dataUrl_of b) = base64 b.
Proof. reflexivity. Qed.

(** The claim as it was stated fails on the fallback path: a truncated JPEG
    is sent upstream as it came, under a URL that says PNG. *)
Lemma fallback_sends_non_png :
  upstream_calls
    (snd (@POST (stubSharp decode_png_640x480) (stubSdk (Normal None))
                sample_env (request_with truncated_jpeg) [])) =
  [(client_for "sk-test", request_params "data:image/png;base64,/9j/4A==")] /\
  isPNG (bytes truncated_jpeg) = false /\
  ~ sends_png_only
      (snd (@POST (stubSharp decode_png_640x480) (stubSdk (Normal None))
                  sample_env (request_with truncated_jpeg) [])).
Proof.
  assert (upstream_calls
            (snd (@POST (stubSharp decode_png_640x480) (stubSdk (Normal None))
                        sample_env (request_with truncated_jpeg) [])) =
          [(client_for "sk-test", request_params "data:image/png;base64,/9j/4A==")])
    as U by (vm_compute; reflexivity).
  split; [exact U|]. split; [reflexivity|].
  intros S.
  destruct (S (client_for "sk-test")
              (request_params "data:image/png;base64,/9j/4A==")
              "data:image/png;base64,/9j/4A==") as [_ (b & Hb & P)].
  - rewrite U. left. reflexivity.
  - left. reflexivity.
  - destruct (dataUrl_of_png b P) as [tail T]. rewrite T in Hb. discriminate Hb.
Qed.

Section PipelineFacts.

Context {sharpLib : SharpLib}.

(** A successful run ends with the PNG encoder followed by [toBuffer]. *)
Lemma preprocessing_steps_output (b out : Buffer) (t t1 : Trace) :
  preprocessing_steps b t = (Normal out, t1) ->
  exists o s s', png o s = Normal s' /\ toBuffer s' = Normal out.
Proof.
  intros H. unfold preprocessing_steps, bind, call, ret in H.
  cbv beta iota zeta in H.
  repeat next_outcome H;
    injection H as <- <-; eauto.
Qed.
End PipelineFacts.

(** C8, as the code has it.  Assume the imaging library's PNG encoder
    produces PNG bytes.  When the pipeline succeeds, the buffer sent upstream
    is its PNG output, under a data URL that declares [image/png].  When the
    pipeline fails, the payload sent upstream is the base64 of the original
    bytes, not re-encoded. *)
Theorem upstream_image_is_png_when_preprocessed
        {sharpLib : SharpLib} {sdk : OpenAISdk}
        (env : ProcessEnv) (request : NextRequest) (image : File)
        (key : string) (t : Trace) :
  (forall o s s' b, png o s = Normal s' -> toBuffer s' = Normal b -> isPNG b = true) ->
  GRAVIXLAYER_API_KEY env = Some key -> key <> "" ->
  attached request image ->
  (forall out t1,
      preprocessing_steps (bytes image) t = (Normal out, t1) ->
      isPNG out = true /\
      upstream_calls (snd (POST env request t)) =
      upstream_calls t ++ [(client_for key, request_params (dataUrl_of out))] /\
      declared_mime (dataUrl_of out) = Some "image/png") /\
  (forall e t1,
      preprocessing_steps (bytes image) t = (Throws e, t1) ->
      exists url,
        upstream_calls (snd (POST env request t)) =
        upstream_calls t ++ [(client_for key, request_params url)] /\
        data_payload url = base64 (bytes image)).
Proof.
  intros Law E N A.
  destruct (POST_upstream_calls env request image key t E N A)
    as (processed & P & _ & U).
  unfold processImageForOCR, try_catch in P.
  split.
  - intros out t1 H. rewrite H in P. injection P as <-.
    destruct (preprocessing_steps_output _ _ _ _ H) as (o & s & s' & Hpng & Hbuf).
    repeat split; [exact (Law o s s' out Hpng Hbuf) | exact U].
  - intros e t1 H. rewrite H in P. injection P as <-.
    exists (dataUrl_of (bytes image)). split; [exact U | reflexivity].
Qed.

Lemma png_input_is_sent_as_png :
  isPNG (png_signature ++ bytes sample_png) = true /\
  upstream_calls
    (snd (@POST (stubSharp decode_png_640x480) (stubSdk (Normal None))
                sample_env (request_with sample_png) [])) =
  [] ++ [(client_for "sk-test",
          request_params (dataUrl_of (png_signature ++ bytes sample_png)))] /\
  declared_mime (dataUrl_of (png_signature ++ bytes sample_png)) = Some "image/png".
Proof.
  refine (proj1 (@upstream_image_is_png_when_preprocessed
                   (stubSharp decode_png_640x480) (stubSdk (Normal None))
                   sample_env (request_with sample_png) sample_png "sk-test" []
                   _ _ _ _) _ _ _).
  - intros o s s' b _. simpl. unfold decode_png_640x480.
    destruct (isPNG (stub_input s')); [|discriminate].
    intros H. injection H as <-. reflexivity.
  - reflexivity.
  - discriminate.
  - exists [("image", entry_file sample_png)]. split; reflexivity.
  - vm_compute. reflexivity.
Defined.

(* ===================================================================== *)
(** * Upscaling (C4) *)
(* ===================================================================== *)



(** An image of exactly 1000 pixels on its longer side is not resized. *)
Example image_of_1000_pixels_is_left_alone :
  resize_calls
    (snd (@processImageForOCR (stubSharp decode_png_1000x500) (bytes sample_png) []))
  = [].
Proof. vm_compute. reflexivity. Qed.

(* ===================================================================== *)
(** * Further facts: how upstream failures are classified *)
(* ===================================================================== *)

Import MoreNotions.

Lemma includes_cons_other (c d : ascii) (s sub : string) :
  Ascii.eqb c d = false ->
  includes (String d s) (String c sub) = includes s (String c sub).
Proof. intros H. cbn [includes startsWith]. now rewrite H. Qed.

Lemma includes_app_r (p s sub : string) :
  includes s sub = true -> includes (p ++ s)%string sub = true.
Proof.
  intros H. induction p as [|c p IH]; [exact H|].
  cbn [append includes]. rewrite IH. apply orb_true_r.
Qed.

Section SkipDigits.

Variables (c : ascii) (sub : string).

Hypothesis not_a_digit :
  forallb (fun d => negb (Ascii.eqb c d))
          (list_ascii_of_string "0123456789-") = true.

Lemma includes_skip_uint (u : Decimal.uint) (s : string) :
  includes (NilEmpty.string_of_uint u ++ s)%string (String c sub)
  = includes s (String c sub).
Proof.
  pose proof not_a_digit as H. cbn [list_ascii_of_string forallb] in H.
  repeat (apply andb_prop in H; let D := fresh "D" in destruct H as [D H]).
  induction u; cbn [NilEmpty.string_of_uint append]; [reflexivity | ..];
    rewrite includes_cons_other, ?IHu; auto using negb_true_iff;
    now apply negb_true_iff.
Qed.

Lemma includes_skip_string_of_int (n : Z) (s : string) :
  includes (string_of_int n ++ s)%string (String c sub)
  = includes s (String c sub).
Proof.
  pose proof not_a_digit as H. cbn [list_ascii_of_string forallb] in H.
  repeat (apply andb_prop in H; let D := fresh "D" in destruct H as [D H]).
  unfold string_of_int, NilZero.string_of_int, NilZero.string_of_uint.
  destruct (Z.to_int n) as [u|u].
  - destruct u; try apply includes_skip_uint.
    cbn [append]. apply includes_cons_other. now apply negb_true_iff.
  - cbn [append]. rewrite includes_cons_other by now apply negb_true_iff.
    destruct u; try apply includes_skip_uint.
    cbn [append]. apply includes_cons_other. now apply negb_true_iff.
Qed.

End SkipDigits.

(** The prefix that the inner catch puts before an upstream message adds
    none of the three phrases the outer catch looks for. *)
Lemma rethrown_keeps_phrases (e : Thrown) (m : string) :
  message_of e = Some m ->
  exists full,
    rethrown e = Error full /\
    includes full "GRAVIXLAYER_API_KEY" = includes m "GRAVIXLAYER_API_KEY" /\
    includes full "Invalid API key" = includes m "Invalid API key" /\
    includes full "Rate limit exceeded" = includes m "Rate limit exceeded".
Proof.
  destruct e as [st msg | msg |]; intros H; inversion H; subst m.
  - unfold rethrown.
    destruct (truthy_int st); [destruct st as [n|]|];
      eexists; (split; [reflexivity|]);
      cbn [append includes startsWith Ascii.eqb Bool.eqb andb orb];
      rewrite ?includes_skip_string_of_int by reflexivity;
      cbn [append includes startsWith Ascii.eqb Bool.eqb andb orb];
      repeat split.
  - eexists. split; [reflexivity|].
    cbn [append includes startsWith Ascii.eqb Bool.eqb andb orb].
    repeat split.
Qed.

Section Classification.

Context {sharpLib : SharpLib} {sdk : OpenAISdk}.

(** When exactly one call was added, both guards were passed. *)
Lemma POST_call_inv (env : ProcessEnv) (request : NextRequest) (t : Trace)
      (call : OpenAI * ChatCompletionCreateParams) :
  upstream_calls (snd (POST env request t)) = upstream_calls t ++ [call] ->
  exists key image processed,
    GRAVIXLAYER_API_KEY env = Some key /\ key <> "" /\
    attached request image /\
    fst (processImageForOCR (bytes image) t) = Normal processed /\
    call = (client_for key, request_params (dataUrl_of processed)) /\
    fst (POST env request t) =
    Normal match chat_completions_create (fst call) (snd call) with
           | Normal c => completion_response c
           | Throws e => final_catch (rethrown e)
           end.
Proof.
  intros U.
  assert (forall l : list (OpenAI * ChatCompletionCreateParams),
             l = l ++ [call] -> False) as Absurd.
  { intros l H. apply (f_equal (@List.length _)) in H.
    rewrite length_app in H. simpl in H. lia. }
  destruct (truthy_string (GRAVIXLAYER_API_KEY env)) eqn:K.
  - destruct (credential_configured_key env K) as (key & E & N).
    destruct (POST_request_kinds env request t K)
      as [(e & _ & R) | [(_ & R) | [(fd & text & _ & _ & _ & R) | (image & A)]]];
      try (rewrite R in U; destruct (Absurd _ U)).
    destruct (POST_upstream_calls env request image key t E N A)
      as (processed & P & R & U').
    rewrite U' in U. apply app_inv_head in U. injection U as <-.
    exists key, image, processed. repeat split; auto.
  - rewrite (POST_missing_credential env request t K) in U.
    destruct (Absurd _ U).
Qed.

Lemma upstream_result_response (env : ProcessEnv) (request : NextRequest)
      (t : Trace) (o : Outcome (option ChatCompletion)) :
  upstream_result env request t o ->
  fst (POST env request t) =
  Normal match o with
         | Normal c => completion_response c
         | Throws e => final_catch (rethrown e)
         end.
Proof.
  intros (call & U & O).
  destruct (POST_call_inv env request t call U) as (_ & _ & _ & _ & _ & _ & _ & _ & R).
  now rewrite R, O.
Qed.

End Classification.

(** X1.  An upstream failure whose message says "Invalid API key" is
    answered 401 with the error "Invalid API key". *)
Theorem upstream_invalid_key_is_401
        {sharpLib : SharpLib} {sdk : OpenAISdk}
        (env : ProcessEnv) (request : NextRequest) (t : Trace)
        (e : Thrown) (m : string) :
  upstream_result env request t (Throws e) ->
  message_of e = Some m ->
  includes m "Invalid API key" = true ->
  includes m "GRAVIXLAYER_API_KEY" = false ->
  fst (POST env request t) =
  Normal {| body := error_body "Invalid API key"; status := 401 |}.
Proof.
  intros R M I G.
  rewrite (upstream_result_response env request t _ R).
  destruct (rethrown_keeps_phrases e m M) as (full & -> & FG & FI & _).
  unfold final_catch. cbn [message_of]. now rewrite FG, G, FI, I.
Qed.

Lemma invalid_key_reply_is_401 :
  fst (@POST (stubSharp decode_png_640x480)
             (stubSdk (Throws (APIError (Some 401) "Invalid API key provided")))
             sample_env (request_with sample_png) []) =
  Normal {| body := error_body "Invalid API key"; status := 401 |}.
Proof.
  apply (@upstream_invalid_key_is_401
           (stubSharp decode_png_640x480)
           (stubSdk (Throws (APIError (Some 401) "Invalid API key provided")))
           sample_env (request_with sample_png) []
           (APIError (Some 401) "Invalid API key provided")
           "Invalid API key provided").
  - eexists. split; [vm_compute; reflexivity | reflexivity].
  - reflexivity.
  - reflexivity.
  - reflexivity.
Defined.

(** X2.  An upstream failure whose message says "Rate limit exceeded" (and
    neither of the two phrases tested before it) is answered 429 with the
    error "Rate limit exceeded". *)
Theorem upstream_rate_limit_is_429
        {sharpLib : SharpLib} {sdk : OpenAISdk}
        (env : ProcessEnv) (request : NextRequest) (t : Trace)
        (e : Thrown) (m : string) :
  upstream_result env request t (Throws e) ->
  message_of e = Some m ->
  includes m "Rate limit exceeded" = true ->
  includes m "GRAVIXLAYER_API_KEY" = false ->
  includes m "Invalid API key" = false ->
  fst (POST env request t) =
  Normal {| body := error_body "Rate limit exceeded"; status := 429 |}.
Proof.
  intros R M L G I.
  rewrite (upstream_result_response env request t _ R).
  destruct (rethrown_keeps_phrases e m M) as (full & -> & FG & FI & FL).
  unfold final_catch. cbn [message_of]. now rewrite FG, G, FI, I, FL, L.
Qed.

Lemma rate_limit_reply_is_429 :
  fst (@POST (stubSharp decode_png_640x480)
             (stubSdk (Throws (APIError (Some 429) "Rate limit exceeded")))
             sample_env (request_with sample_png) []) =
  Normal {| body := error_body "Rate limit exceeded"; status := 429 |}.
Proof.
  apply (@upstream_rate_limit_is_429
           (stubSharp decode_png_640x480)
           (stubSdk (Throws (APIError (Some 429) "Rate limit exceeded")))
           sample_env (request_with sample_png) []
           (APIError (Some 429) "Rate limit exceeded")
           "Rate limit exceeded").
  - eexists. split; [vm_compute; reflexivity | reflexivity].
  - reflexivity.
  - reflexivity.
  - reflexivity.
  - reflexivity.
Defined.

(** X3.  The response status is chosen from the text of the upstream
    message, never from the upstream status: an API error of any non-zero
    status whose message has none of the three phrases is answered 500, and
    the error text carries that status and message. *)
Theorem upstream_status_is_reported_not_propagated
        {sharpLib : SharpLib} {sdk : OpenAISdk}
        (env : ProcessEnv) (request : NextRequest) (t : Trace)
        (st : Z) (m : string) :
  upstream_result env request t (Throws (APIError (Some st) m)) ->
  st <> 0 ->
  plain_message m ->
  fst (POST env request t) =
  Normal {| body := error_body ("Internal server error: Gravix Layer API error ("
                                  ++ string_of_int st ++ "): " ++ m)%string;
            status := 500 |}.
Proof.
  intros R NZ (G & I & L).
  rewrite (upstream_result_response env request t _ R).
  destruct (rethrown_keeps_phrases (APIError (Some st) m) m eq_refl)
    as (full & F & FG & FI & FL).
  unfold final_catch. rewrite F. cbn [message_of]. rewrite FG, G, FI, I, FL, L.
  unfold rethrown in F. cbn [truthy_int] in F.
  apply Z.eqb_neq in NZ. rewrite NZ in F. cbn [negb] in F.
  injection F as <-. reflexivity.
Qed.

Lemma unauthorized_without_phrase_is_500 :
  fst (@POST (stubSharp decode_png_640x480)
             (stubSdk (Throws (APIError (Some 401) "Unauthorized")))
             sample_env (request_with sample_png) []) =
  Normal {| body := error_body
                      "Internal server error: Gravix Layer API error (401): Unauthorized";
            status := 500 |}.
Proof.
  apply (@upstream_status_is_reported_not_propagated
           (stubSharp decode_png_640x480)
           (stubSdk (Throws (APIError (Some 401) "Unauthorized")))
           sample_env (request_with sample_png) [] 401 "Unauthorized").
  - eexists. split; [vm_compute; reflexivity | reflexivity].
  - discriminate.
  - repeat split.
Defined.

(** X4.  The test for the variable name comes first in the outer catch: an
    upstream failure whose message mentions GRAVIXLAYER_API_KEY is answered
    with the missing-credential error (500) although the credential is
    configured, whatever else the message says. *)
Theorem upstream_message_naming_the_key_reads_as_missing_credential
        {sharpLib : SharpLib} {sdk : OpenAISdk}
        (env : ProcessEnv) (request : NextRequest) (t : Trace)
        (e : Thrown) (m : string) :
  upstream_result env request t (Throws e) ->
  message_of e = Some m ->
  includes m "GRAVIXLAYER_API_KEY" = true ->
  credential_configured env /\
  fst (POST env request t) = Normal missing_credential_response.
Proof.
  intros R M G. split.
  - destruct R as (call & U & _).
    destruct (POST_call_inv env request t call U) as (key & _ & _ & E & N & _).
    unfold credential_configured. rewrite E.
    destruct key; [congruence | reflexivity].
  - rewrite (upstream_result_response env request t _ R).
    destruct (rethrown_keeps_phrases e m M) as (full & -> & FG & _).
    unfold final_catch. cbn [message_of]. now rewrite FG, G.
Qed.

Lemma key_name_in_upstream_message :
  credential_configured sample_env /\
  fst (@POST (stubSharp decode_png_640x480)
             (stubSdk (Throws (APIError (Some 401)
                                 "Invalid API key: check GRAVIXLAYER_API_KEY")))
             sample_env (request_with sample_png) []) =
  Normal missing_credential_response.
Proof.
  apply (@upstream_message_naming_the_key_reads_as_missing_credential
           (stubSharp decode_png_640x480)
           (stubSdk (Throws (APIError (Some 401)
                               "Invalid API key: check GRAVIXLAYER_API_KEY")))
           sample_env (request_with sample_png) []
           (APIError (Some 401) "Invalid API key: check GRAVIXLAYER_API_KEY")
           "Invalid API key: check GRAVIXLAYER_API_KEY").
  - eexists. split; [vm_compute; reflexivity | reflexivity].
  - reflexivity.
  - reflexivity.
Defined.

(* ===================================================================== *)
(** * Further facts: the responses of the handler *)
(* ===================================================================== *)

Lemma completion_response_kind (c : option ChatCompletion) :
  (status (completion_response c) = 200 /\
   exists s, body (completion_response c) = text_body s /\ s <> "") \/
  (status (completion_response c) = 500 /\
   exists msg, body (completion_response c) = error_body msg /\ msg <> "").
Proof.
  destruct c as [[[[|[[[[[|a s]|]]|]] rest]|]]|]; simpl;
    solve [ left; split; [reflexivity | eexists; split; [reflexivity | discriminate]]
          | right; split; [reflexivity | eexists; split; [reflexivity | discriminate]] ].
Qed.

Lemma final_catch_kind (e : Thrown) :
  (status (final_catch e) = 500 \/ status (final_catch e) = 401 \/
   status (final_catch e) = 429) /\
  exists msg, body (final_catch e) = error_body msg /\ msg <> "".
Proof.
  unfold final_catch.
  destruct (message_of e) as [msg|].
  - repeat match goal with
           | |- context [if ?c then _ else _] => destruct c
           end; simpl; (split; [auto | eexists; split; [reflexivity | discriminate]]).
  - simpl. split; [auto | eexists; split; [reflexivity | discriminate]].
Qed.

(** Every request gets a response, of one of two kinds. *)
Lemma POST_response_kinds
        {sharpLib : SharpLib} {sdk : OpenAISdk}
        (env : ProcessEnv) (request : NextRequest) (t : Trace) :
  exists resp,
    fst (POST env request t) = Normal resp /\
    ((status resp = 200 /\ exists s, body resp = text_body s /\ s <> "") \/
     ((status resp = 400 \/ status resp = 401 \/ status resp = 429 \/
       status resp = 500) /\
      exists msg, body resp = error_body msg /\ msg <> "")).
Proof.
  assert (forall e, exists resp,
               Normal (final_catch e) = Normal resp /\
               ((status resp = 200 /\ exists s, body resp = text_body s /\ s <> "") \/
                ((status resp = 400 \/ status resp = 401 \/ status resp = 429 \/
                  status resp = 500) /\
                 exists msg, body resp = error_body msg /\ msg <> ""))) as Caught.
  { intros e. exists (final_catch e). split; [reflexivity|]. right.
    destruct (final_catch_kind e) as [[S|[S|S]] B]; auto. }
  destruct (truthy_string (GRAVIXLAYER_API_KEY env)) eqn:K.
  - destruct (credential_configured_key env K) as (key & E & N).
    destruct (POST_request_kinds env request t K)
      as [(e & _ & R) | [(_ & R) | [(fd & text & _ & _ & _ & R) | (image & A)]]].
    + rewrite R. apply Caught.
    + rewrite R.
      exists invalid_input_response. split; [reflexivity|]. right.
      split; [auto|]. eexists. split; [reflexivity | discriminate].
    + rewrite R. apply Caught.
    + destruct (POST_upstream_calls env request image key t E N A)
        as (processed & _ & R & _).
      rewrite R. destruct (chat_completions_create _ _) as [c|e].
      * exists (completion_response c). split; [reflexivity|].
        destruct (completion_response_kind c) as [[S B]|[S B]]; auto 6.
      * apply Caught.
  - rewrite (POST_missing_credential env request t K).
    exists missing_credential_response. split; [reflexivity|]. right.
    split; [auto 6|]. eexists. split; [reflexivity | discriminate].
Qed.

(** X5.  The handler answers every request: it never throws, whatever the
    request, the environment and the two libraries do.  The status is one
    of 200, 400, 401, 429 and 500; a 200 carries a non-empty text and every
    other status a non-empty error message. *)
Theorem POST_always_responds
        {sharpLib : SharpLib} {sdk : OpenAISdk}
        (env : ProcessEnv) (request : NextRequest) (t : Trace) :
  (forall e, fst (POST env request t) <> Throws e) /\
  exists resp,
    fst (POST env request t) = Normal resp /\
    In (status resp) [200; 400; 401; 429; 500] /\
    (status resp = 200 ->
     exists s, body resp = text_body s /\ s <> "") /\
    (status resp <> 200 ->
     exists msg, body resp = error_body msg /\ msg <> "").
Proof.
  destruct (POST_response_kinds env request t)
    as (resp & R & [(S & B) | (S & B)]).
  - split; [intros e; rewrite R; discriminate|].
    exists resp. split; [exact R|]. rewrite S. split; [now left|].
    split; [intros _; exact B | intros NS; congruence].
  - split; [intros e; rewrite R; discriminate|].
    exists resp. split; [exact R|]. split.
    + destruct S as [S|[S|[S|S]]]; rewrite S; simpl; auto 6.
    + split; [intros S2; lia | intros _; exact B].
Qed.

(** X6.  Every upstream call the handler makes is built the same way: the
    client holds the configured key and the fixed base URL, and the request
    is one user message with the fixed instruction and one PNG data URL,
    sent to the fixed model with temperature 0, top_p 1, seed 0, at most
    2048 tokens and no streaming.  The image in the URL is either the
    pipeline's output or, after a failure, the uploaded bytes. *)
Theorem upstream_request_is_fixed
        {sharpLib : SharpLib} {sdk : OpenAISdk}
        (env : ProcessEnv) (request : NextRequest) (t : Trace)
        (call : OpenAI * ChatCompletionCreateParams) :
  upstream_calls (snd (POST env request t)) = upstream_calls t ++ [call] ->
  GRAVIXLAYER_API_KEY env = Some (apiKey (fst call)) /\
  baseURL (fst call) = "https://api.gravixlayer.com/v1" /\
  model (snd call) = "google/gemma-3-12b-it" /\
  temperature (snd call) = 0 /\ top_p (snd call) = 1 /\ seed (snd call) = 0 /\
  max_tokens (snd call) = 2048 /\ stream (snd call) = false /\
  exists image sent,
    attached request image /\
    messages (snd call) =
    [ {| role := "user";
         content :=
           [ text_part "Extract all the text from the image. Make sure to only return the extracted text and nothing else.";
             image_url_part ("data:image/png;base64," ++ base64 sent)%string ] |} ] /\
    (sent = bytes image \/
     exists t', preprocessing_steps (bytes image) t = (Normal sent, t')).
Proof.
  intros U.
  destruct (POST_call_inv env request t call U)
    as (key & image & processed & E & N & A & P & -> & _).
  cbn [fst snd client_for request_params apiKey baseURL model temperature top_p
       seed max_tokens stream messages].
  repeat split; auto.
  exists image, processed. repeat split; auto.
  destruct (processImageForOCR_cases (bytes image) t)
    as [(out & t' & S & H) | (e & t' & S & H)];
    rewrite H in P; injection P as <-; eauto.
Qed.

Lemma request_for_sample_png_is_fixed :
  GRAVIXLAYER_API_KEY sample_env = Some "sk-test" /\
  baseURL (client_for "sk-test") = "https://api.gravixlayer.com/v1" /\
  model (request_params (dataUrl_of (png_signature ++ bytes sample_png)))
  = "google/gemma-3-12b-it" /\
  temperature (request_params (dataUrl_of (png_signature ++ bytes sample_png))) = 0.
Proof.
  pose proof (@upstream_request_is_fixed
                (stubSharp decode_png_640x480) (stubSdk (Normal None))
                sample_env (request_with sample_png) []
                (client_for "sk-test",
                 request_params (dataUrl_of (png_signature ++ bytes sample_png)))
                ltac:(vm_compute; reflexivity)) as (H1 & H2 & H3 & H4 & _).
  exact (conj H1 (conj H2 (conj H3 H4))).
Defined.

(** X7.  When the request body cannot be read as form data, the handler
    makes no library call and answers from the outer catch: 500 with the
    text of the error, or with the unknown-error text when the value thrown
    is not an [Error]. *)
Theorem unreadable_body_is_server_error
        {sharpLib : SharpLib} {sdk : OpenAISdk}
        (env : ProcessEnv) (request : NextRequest) (t : Trace) (e : Thrown) :
  credential_configured env ->
  formData request = Throws e ->
  snd (POST env request t) = t /\
  (forall m, message_of e = Some m -> plain_message m ->
             fst (POST env request t) =
             Normal {| body := error_body ("Internal server error: " ++ m)%string;
                       status := 500 |}) /\
  (message_of e = None ->
   fst (POST env request t) =
   Normal {| body := error_body "An unknown internal server error occurred.";
             status := 500 |}).
Proof.
  intros C F. rewrite (POST_formData_throws env request e t C F).
  cbn [fst snd]. repeat split.
  - intros m M (G & I & L). unfold final_catch. now rewrite M, G, I, L.
  - intros M. unfold final_catch. now rewrite M.
Qed.

Lemma json_body_is_server_error :
  fst (@POST (stubSharp decode_png_640x480) (stubSdk (Normal None)) sample_env
             {| formData := Throws (Error "Content-Type was not multipart/form-data") |}
             []) =
  Normal {| body := error_body
                      "Internal server error: Content-Type was not multipart/form-data";
            status := 500 |}.
Proof.
  refine (proj1 (proj2 (@unreadable_body_is_server_error
                          (stubSharp decode_png_640x480) (stubSdk (Normal None))
                          sample_env
                          {| formData := Throws (Error "Content-Type was not multipart/form-data") |}
                          [] (Error "Content-Type was not multipart/form-data")
                          _ _))
                "Content-Type was not multipart/form-data" _ _).
  - reflexivity.
  - reflexivity.
  - reflexivity.
  - repeat split.
Defined.

(** X8.  The two places that test the key agree: if [createOpenAIClient]
    finds no key, the inner block makes no call, and the error it re-throws
    is answered by the outer catch with the same missing-credential response
    as the guard at the top of the handler. *)
Theorem missing_key_inside_the_call_block
        {sdk : OpenAISdk}
        (env : ProcessEnv) (dataUrl : string) (t : Trace) :
  ~ credential_configured env ->
  exists e,
    call_upstream env dataUrl t = (Throws e, t) /\
    message_of e =
    Some "Network or SDK error during API call: GRAVIXLAYER_API_KEY environment variable is required" /\
    final_catch e = missing_credential_response.
Proof.
  intros NC. eexists.
  unfold call_upstream, try_catch, bind, createOpenAIClient, credential_configured in *.
  destruct (GRAVIXLAYER_API_KEY env) as [[|c k]|]; cbn in *;
    try (exfalso; apply NC; reflexivity);
    repeat split; reflexivity.
Qed.

Lemma empty_key_inside_the_call_block :
  exists e,
    @call_upstream (stubSdk (Normal None))
                   {| GRAVIXLAYER_API_KEY := Some "" |} "data:," [] = (Throws e, []) /\
    message_of e =
    Some "Network or SDK error during API call: GRAVIXLAYER_API_KEY environment variable is required" /\
    final_catch e = missing_credential_response.
Proof.
  apply (@missing_key_inside_the_call_block
           (stubSdk (Normal None))
           {| GRAVIXLAYER_API_KEY := Some "" |} "data:," []).
  unfold credential_configured. simpl. discriminate.
Defined.

(* ===================================================================== *)
(** * Further facts: the resize request *)
(* ===================================================================== *)

Section ResizeFacts.

Context {sharpLib : SharpLib}.


End ResizeFacts.





(** X11.  When the metadata gives no width or no height, or gives zero for
    either, no resize is requested, whatever else happens in the pipeline. *)
Theorem no_resize_without_dimensions
        {sharpLib : SharpLib}
        (imageBuffer : Buffer) (t : Trace) (s : Sharp) (md : Metadata) :
  sharp imageBuffer = Normal s ->
  metadata s = Normal md ->
  truthy_int (width md) && truthy_int (height md) = false ->
  resize_calls (snd (processImageForOCR imageBuffer t)) = resize_calls t.
Proof.
  intros Hs Hm Unknown.
  unfold processImageForOCR, try_catch, preprocessing_steps, bind, call, ret.
  cbv beta iota zeta.
  rewrite Hs, Hm. cbv beta iota zeta.
  unfold truthy_int in Unknown.
  destruct (width md) as [w|], (height md) as [h|];
    try rewrite Unknown; cbv beta iota zeta;
    repeat match goal with
           | |- context [match ?o with _ => _ end] =>
               match type of o with
               | Outcome _ => destruct o; cbv beta iota zeta
               end
           end;
    cbn [snd]; repeat rewrite resize_calls_app; cbn [resize_calls app];
    repeat rewrite app_nil_r; reflexivity.
Qed.

(** An input whose metadata has no height. *)
Lemma no_resize_without_height :
  resize_calls
    (snd (@processImageForOCR
            (stubSharp_with (fun _ => Normal {| width := Some 640; height := None;
                                                   format := Some "svg" |}))
            (bytes sample_png) [])) = resize_calls [].
Proof.
  refine (@no_resize_without_dimensions
            (stubSharp_with (fun _ => Normal {| width := Some 640; height := None;
                                                   format := Some "svg" |}))
            (bytes sample_png) [] _ _ _ _ _).
  - reflexivity.
  - reflexivity.
  - reflexivity.
Defined.

(* ===================================================================== *)
(** * Further facts: the page and the handler together *)
(* ===================================================================== *)

Lemma startsWith_app_includes (a b : string) :
  forall s, startsWith s (a ++ b)%string = true -> includes s b = true.
Proof.
  induction a as [|c a IH]; intros s H.
  - cbn [append] in H. destruct s; cbn [includes]; now rewrite H.
  - destruct s as [|d s]; cbn [append startsWith] in H; [discriminate|].
    apply andb_prop in H. destruct H as [_ H].
    cbn [includes]. rewrite (IH s H). apply orb_true_r.
Qed.

(** A text that contains [a ++ b] contains [b]. *)
Lemma includes_suffix (a b s : string) :
  includes s (a ++ b)%string = true -> includes s b = true.
Proof.
  induction s as [|d s IH]; intros H.
  - cbn [includes] in H. rewrite orb_false_r in H.
    now apply (startsWith_app_includes a b).
  - cbn [includes] in H. apply orb_prop in H. destruct H as [H|H].
    + now apply (startsWith_app_includes a b).
    + change (includes (String d s) b)
        with (startsWith (String d s) b || includes s b).
      rewrite (IH H). apply orb_true_r.
Qed.

Lemma setup_guide_test (m : string) :
  includes m "API key" || includes m "environment variable"
  || includes m "Invalid API key"
  = includes m "API key" || includes m "environment variable".
Proof.
  destruct (includes m "Invalid API key") eqn:I.
  - rewrite (includes_suffix "Invalid " "API key" m I). reflexivity.
  - now rewrite orb_false_r.
Qed.

(** What the page shows for a reply of the route handler. *)
Lemma handleOCR_run_on_reply (r : NextResponse) (raw : string) (elapsed : Z)
      (st : PageOcr.OcrState) :
  (forall s, body r = text_body s -> status r = 200 ->
             PageOcr.handleOCR_run elapsed (Normal (PageOcr.http_reply r raw)) st =
             {| PageOcr.error := None;
                PageOcr.extractedText := Some s;
                PageOcr.processingTime := Some elapsed;
                PageOcr.isLoading := false;
                PageOcr.showSetupGuide := false |}) /\
  (forall msg, body r = error_body msg -> msg <> "" ->
               (status r < 200 \/ 299 < status r) ->
               PageOcr.handleOCR_run elapsed (Normal (PageOcr.http_reply r raw)) st =
               {| PageOcr.error := Some msg;
                  PageOcr.extractedText := Some "";
                  PageOcr.processingTime := None;
                  PageOcr.isLoading := false;
                  PageOcr.showSetupGuide :=
                    includes msg "API key" || includes msg "environment variable" |}).
Proof.
  split.
  - intros s B S.
    unfold PageOcr.handleOCR_run, PageOcr.try_block, PageOcr.ok, PageOcr.http_reply.
    cbn [PageOcr.resp_status PageOcr.json]. rewrite S, B. reflexivity.
  - intros msg B N S.
    assert (truthy_string (Some msg) = true) as T
        by (destruct msg; [congruence | reflexivity]).
    assert (truthy_string (Some "application/json")
            && includes "application/json" "application/json" = true) as J
        by reflexivity.
    assert ((200 <=? status r) && (status r <=? 299) = false) as NotOk.
    { apply andb_false_iff.
      destruct S; [left; apply Z.leb_gt | right; apply Z.leb_gt]; lia. }
    unfold PageOcr.handleOCR_run, PageOcr.try_block, PageOcr.ok,
      PageOcr.error_message_of, PageOcr.http_reply.
    cbn [PageOcr.resp_status PageOcr.json PageOcr.content_type].
    cbv beta iota zeta.
    rewrite NotOk, J, B. cbn [negb PageOcr.json_error]. cbv beta iota zeta.
    rewrite T, (setup_guide_test msg).
    destruct (includes msg "API key" || includes msg "environment variable");
      reflexivity.
Qed.

(** X12.  The page and the handler together, for every request, environment
    and behaviour of the libraries: after [handleOCR] has run on the
    handler's reply the page is no longer loading, and it shows either the
    text of a 200 reply (no error, the processing time, no setup guide) or
    the error message of any other reply (no text, no processing time), with
    the setup guide exactly when that message contains "API key" or
    "environment variable". *)
Theorem page_shows_text_or_error
        {sharpLib : SharpLib} {sdk : OpenAISdk}
        (env : ProcessEnv) (request : NextRequest) (t : Trace)
        (raw : string) (elapsed : Z) (st : PageOcr.OcrState) :
  exists resp,
    fst (POST env request t) = Normal resp /\
    let st' := PageOcr.handleOCR_run elapsed (Normal (PageOcr.http_reply resp raw)) st in
    (status resp = 200 /\
     exists s, body resp = text_body s /\ s <> "" /\
               st' = {| PageOcr.error := None;
                        PageOcr.extractedText := Some s;
                        PageOcr.processingTime := Some elapsed;
                        PageOcr.isLoading := false;
                        PageOcr.showSetupGuide := false |}) \/
    (status resp <> 200 /\
     exists msg, body resp = error_body msg /\ msg <> "" /\
                 st' = {| PageOcr.error := Some msg;
                          PageOcr.extractedText := Some "";
                          PageOcr.processingTime := None;
                          PageOcr.isLoading := false;
                          PageOcr.showSetupGuide :=
                            includes msg "API key"
                            || includes msg "environment variable" |}).
Proof.
  destruct (POST_response_kinds env request t)
    as (resp & R & [(S & s & B & N) | (S & msg & B & N)]);
    exists resp; (split; [exact R|]); cbv zeta.
  - left. split; [exact S|]. exists s. repeat split; auto.
    now apply (proj1 (handleOCR_run_on_reply resp raw elapsed st)).
  - right. split; [lia|]. exists msg. repeat split; auto.
    apply (proj2 (handleOCR_run_on_reply resp raw elapsed st)); auto. lia.
Qed.

(** X13.  With no credential configured the page ends up showing the setup
    guide together with the handler's missing-credential message, for every
    file and whatever was on the page before. *)
Theorem missing_credential_opens_the_setup_guide
        {sharpLib : SharpLib} {sdk : OpenAISdk}
        (env : ProcessEnv) (request : NextRequest) (t : Trace)
        (raw : string) (elapsed : Z) (st : PageOcr.OcrState) :
  ~ credential_configured env ->
  exists resp,
    fst (POST env request t) = Normal resp /\
    PageOcr.handleOCR_run elapsed (Normal (PageOcr.http_reply resp raw)) st =
    {| PageOcr.error := Some "GRAVIXLAYER_API_KEY environment variable is not set";
       PageOcr.extractedText := Some "";
       PageOcr.processingTime := None;
       PageOcr.isLoading := false;
       PageOcr.showSetupGuide := true |}.
Proof.
  intros NC.
  assert (truthy_string (GRAVIXLAYER_API_KEY env) = false) as F.
  { unfold credential_configured in NC.
    destruct (truthy_string (GRAVIXLAYER_API_KEY env)); congruence. }
  exists missing_credential_response.
  rewrite (POST_missing_credential env request t F). split; [reflexivity|].
  rewrite (proj2 (handleOCR_run_on_reply missing_credential_response raw elapsed st)
                 "GRAVIXLAYER_API_KEY environment variable is not set"
                 eq_refl ltac:(discriminate) ltac:(simpl; lia)).
  reflexivity.
Qed.

Lemma page_without_key_shows_setup_guide :
  exists resp,
    fst (@POST (stubSharp decode_png_640x480) (stubSdk (Normal None))
               no_key_env (request_with sample_png) []) = Normal resp /\
    PageOcr.handleOCR_run 12 (Normal (PageOcr.http_reply resp "")) PageOcr.idle =
    {| PageOcr.error := Some "GRAVIXLAYER_API_KEY environment variable is not set";
       PageOcr.extractedText := Some "";
       PageOcr.processingTime := None;
       PageOcr.isLoading := false;
       PageOcr.showSetupGuide := true |}.
Proof.
  apply (@missing_credential_opens_the_setup_guide
           (stubSharp decode_png_640x480) (stubSdk (Normal None))
           no_key_env (request_with sample_png) [] "" 12 PageOcr.idle).
  unfold credential_configured. simpl. discriminate.
Defined.

(** X14.  How an upstream failure with message [m] reaches the page.  If
    [m] mentions GRAVIXLAYER_API_KEY the page shows the missing-credential
    message with the setup guide.  Otherwise, if [m] says "Invalid API key"
    the page shows the error "Invalid API key" with the setup guide; and if
    it does not but says "Rate limit exceeded" the page shows that error
    with the setup guide hidden. *)
Theorem upstream_failures_on_the_page
        {sharpLib : SharpLib} {sdk : OpenAISdk}
        (env : ProcessEnv) (request : NextRequest) (t : Trace)
        (e : Thrown) (m : string)
        (raw : string) (elapsed : Z) (st : PageOcr.OcrState) :
  upstream_result env request t (Throws e) ->
  message_of e = Some m ->
  exists resp,
    fst (POST env request t) = Normal resp /\
    let st' := PageOcr.handleOCR_run elapsed (Normal (PageOcr.http_reply resp raw)) st in
    (includes m "GRAVIXLAYER_API_KEY" = true ->
     PageOcr.error st' = Some "GRAVIXLAYER_API_KEY environment variable is not set" /\
     PageOcr.showSetupGuide st' = true) /\
    (includes m "GRAVIXLAYER_API_KEY" = false ->
     includes m "Invalid API key" = true ->
     PageOcr.error st' = Some "Invalid API key" /\
     PageOcr.showSetupGuide st' = true) /\
    (includes m "GRAVIXLAYER_API_KEY" = false ->
     includes m "Invalid API key" = false ->
     includes m "Rate limit exceeded" = true ->
     PageOcr.error st' = Some "Rate limit exceeded" /\
     PageOcr.showSetupGuide st' = false).
Proof.
  intros R M.
  pose proof (upstream_result_response env request t _ R) as P.
  destruct (rethrown_keeps_phrases e m M) as (full & F & FG & FI & FL).
  cbv beta iota in P. rewrite F in P. unfold final_catch in P.
  cbn [message_of] in P.
  rewrite FG, FI, FL in P.
  eexists. split; [exact P|]. cbv zeta. split; [|split].
  - intros G. rewrite G. cbv beta iota.
    rewrite (proj2 (handleOCR_run_on_reply
                      (NextResponse_json
                         (error_body "GRAVIXLAYER_API_KEY environment variable is not set")
                         (Some 500))
                      raw elapsed st)
                   "GRAVIXLAYER_API_KEY environment variable is not set"
                   eq_refl ltac:(discriminate) ltac:(simpl; lia)).
    split; reflexivity.
  - intros G I. rewrite G, I. cbv beta iota.
    rewrite (proj2 (handleOCR_run_on_reply
                      (NextResponse_json (error_body "Invalid API key") (Some 401))
                      raw elapsed st)
                   "Invalid API key" eq_refl ltac:(discriminate) ltac:(simpl; lia)).
    split; reflexivity.
  - intros G I L. rewrite G, I, L. cbv beta iota.
    rewrite (proj2 (handleOCR_run_on_reply
                      (NextResponse_json (error_body "Rate limit exceeded") (Some 429))
                      raw elapsed st)
                   "Rate limit exceeded" eq_refl ltac:(discriminate) ltac:(simpl; lia)).
    split; reflexivity.
Qed.

Lemma rate_limit_on_the_page :
  exists resp,
    fst (@POST (stubSharp decode_png_640x480)
               (stubSdk (Throws (APIError (Some 429) "Rate limit exceeded")))
               sample_env (request_with sample_png) []) = Normal resp /\
    let st' := PageOcr.handleOCR_run 12 (Normal (PageOcr.http_reply resp "")) PageOcr.idle in
    (includes "Rate limit exceeded" "GRAVIXLAYER_API_KEY" = true ->
     PageOcr.error st' = Some "GRAVIXLAYER_API_KEY environment variable is not set" /\
     PageOcr.showSetupGuide st' = true) /\
    (includes "Rate limit exceeded" "GRAVIXLAYER_API_KEY" = false ->
     includes "Rate limit exceeded" "Invalid API key" = true ->
     PageOcr.error st' = Some "Invalid API key" /\
     PageOcr.showSetupGuide st' = true) /\
    (includes "Rate limit exceeded" "GRAVIXLAYER_API_KEY" = false ->
     includes "Rate limit exceeded" "Invalid API key" = false ->
     includes "Rate limit exceeded" "Rate limit exceeded" = true ->
     PageOcr.error st' = Some "Rate limit exceeded" /\
     PageOcr.showSetupGuide st' = false).
Proof.
  apply (@upstream_failures_on_the_page
           (stubSharp decode_png_640x480)
           (stubSdk (Throws (APIError (Some 429) "Rate limit exceeded")))
           sample_env (request_with sample_png) []
           (APIError (Some 429) "Rate limit exceeded") "Rate limit exceeded"
           "" 12 PageOcr.idle).
  - eexists. split; [vm_compute; reflexivity | reflexivity].
  - reflexivity.
Defined.

Ltac settled_with_error :=
  split; [reflexivity
         | right; split; [eexists; reflexivity | split; reflexivity]].

(** X15.  Whatever [fetch] does (resolve with any response, JSON or not, or
    reject), a run of [handleOCR] ends with the loading flag off, and either
    with no error and the processing time set, or with an error, no
    processing time and the text cleared. *)
Theorem handleOCR_always_settles
        (elapsed : Z) (fetched : Outcome PageOcr.Response) (st : PageOcr.OcrState) :
  let st' := PageOcr.handleOCR_run elapsed fetched st in
  PageOcr.isLoading st' = false /\
  ((PageOcr.error st' = None /\ PageOcr.processingTime st' = Some elapsed) \/
   (exists m, PageOcr.error st' = Some m) /\
   PageOcr.processingTime st' = None /\
   PageOcr.extractedText st' = Some "").
Proof.
  cbv zeta. unfold PageOcr.handleOCR_run, PageOcr.try_block.
  destruct fetched as [response|e]; cbv beta iota zeta.
  - destruct (negb (PageOcr.ok response)).
    + destruct (PageOcr.error_message_of response) as [msg|e].
      * destruct (includes msg "API key" || includes msg "environment variable"
                  || includes msg "Invalid API key"); settled_with_error.
      * settled_with_error.
    + destruct (PageOcr.json response) as [data|e].
      * destruct (truthy_string (PageOcr.json_error data)).
        -- settled_with_error.
        -- split; [reflexivity | left; split; reflexivity].
      * settled_with_error.
  - settled_with_error.
Qed.

Lemma string_length_append (a b : string) :
  String.length (a ++ b)%string = (String.length a + String.length b)%nat.
Proof. induction a as [|c a IH]; simpl; auto. Qed.

Lemma string_length_substring (n m : nat) (s : string) :
  (String.length (String.substring n m s) <= m)%nat.
Proof.
  revert n m. induction s as [|c s IH]; intros n m.
  - destruct n, m; simpl; lia.
  - destruct n.
    + destruct m; simpl; [lia|]. specialize (IH 0%nat m). lia.
    + simpl. apply IH.
Qed.

(** X16.  A failure reply that is not JSON is shown shortened: the message
    on the page has at most 203 characters (the first 200 of the body and
    three dots, or one of the three fixed sentences), and a body of at most
    200 characters that matches none of the three sentences is shown
    unchanged. *)
Theorem non_json_error_is_shortened
        (elapsed : Z) (response : PageOcr.Response) (m : string)
        (st : PageOcr.OcrState) :
  PageOcr.ok response = false ->
  PageOcr.content_type response = None ->
  PageOcr.text response = Normal m ->
  exists msg,
    PageOcr.error (PageOcr.handleOCR_run elapsed (Normal response) st) = Some msg /\
    (String.length msg <= 203)%nat /\
    ((String.length m <= 200)%nat ->
     includes (PageOcr.toLowerCase m) "internal server error" = false ->
     includes (PageOcr.toLowerCase m) "forbidden" = false ->
     includes (PageOcr.toLowerCase m) "not found" = false ->
     msg = m).
Proof.
  intros NotOk CT Tx.
  unfold PageOcr.handleOCR_run, PageOcr.try_block, PageOcr.error_message_of.
  rewrite NotOk, CT, Tx. cbn [negb truthy_string andb]. cbv beta iota zeta.
  set (shown := if Nat.ltb 200 (String.length m)
                then (String.substring 0 200 m ++ "...")%string else m).
  assert (String.length shown <= 203)%nat as Bound.
  { unfold shown. destruct (Nat.ltb 200 (String.length m)) eqn:L.
    - rewrite string_length_append.
      pose proof (string_length_substring 0 200 m). simpl. lia.
    - apply Nat.ltb_ge in L. lia. }
  assert ((String.length m <= 200)%nat -> shown = m) as Short.
  { intros Le. unfold shown.
    destruct (Nat.ltb 200 (String.length m)) eqn:L; [|reflexivity].
    apply Nat.ltb_lt in L. lia. }
  destruct (includes (PageOcr.toLowerCase shown) "internal server error") eqn:T1;
    [|destruct (includes (PageOcr.toLowerCase shown) "forbidden") eqn:T2;
      [|destruct (includes (PageOcr.toLowerCase shown) "not found") eqn:T3]];
    match goal with
    | |- context [if ?c then _ else _] => destruct c
    end;
    eexists; (split; [reflexivity|]); (split; [simpl; try lia; exact Bound|]);
    intros Le H1 H2 H3; pose proof (Short Le) as Eq; clearbody shown;
    subst shown; cbn [message_of]; congruence.
Qed.

Lemma short_plain_error_is_shown :
  exists msg,
    PageOcr.error
      (PageOcr.handleOCR_run 7
         (Normal {| PageOcr.resp_status := 502;
                    PageOcr.content_type := None;
                    PageOcr.json := Throws (Error "Unexpected token");
                    PageOcr.text := Normal "Bad Gateway" |})
         PageOcr.idle) = Some msg /\
    (String.length msg <= 203)%nat /\
    ((String.length "Bad Gateway" <= 200)%nat ->
     includes (PageOcr.toLowerCase "Bad Gateway") "internal server error" = false ->
     includes (PageOcr.toLowerCase "Bad Gateway") "forbidden" = false ->
     includes (PageOcr.toLowerCase "Bad Gateway") "not found" = false ->
     msg = "Bad Gateway").
Proof.
  apply (non_json_error_is_shortened 7
           {| PageOcr.resp_status := 502;
              PageOcr.content_type := None;
              PageOcr.json := Throws (Error "Unexpected token");
              PageOcr.text := Normal "Bad Gateway" |}
           "Bad Gateway" PageOcr.idle).
  - reflexivity.
  - reflexivity.
  - reflexivity.
Defined.

(** X17.  The page and the handler agree on the form field: every request
    that [processFile] posts carries the file under [image], so with the
    credential configured the handler never answers it with the 400 of a
    missing image and invokes [chat.completions.create] exactly once for
    it. *)
Theorem posted_request_carries_the_image
        {sharpLib : SharpLib} {sdk : OpenAISdk} {browser : Page.Browser}
        (env : ProcessEnv) (file : File) (st : Page.PageState) (t : Trace)
        (request : NextRequest) :
  credential_configured env ->
  Page.posted (Page.processFile file st) = Page.posted st ++ [request] ->
  attached request file /\
  fst (POST env request t) <> Normal invalid_input_response /\
  List.length (upstream_calls (snd (POST env request t))) =
  S (List.length (upstream_calls t)).
Proof.
  intros C P.
  assert (forall l : list NextRequest, l = l ++ [request] -> False) as Absurd.
  { intros l H. apply (f_equal (@List.length _)) in H.
    rewrite length_app in H. simpl in H. lia. }
  assert (request = Page.ocr_request file) as ->.
  { unfold Page.processFile in P.
    destruct (startsWith (type file) "image/");
      [destruct (size file >? 10 * 1024 * 1024);
       [|cbv zeta in P; destruct (Page.resizeImageForDisplay file)]|];
      cbn [Page.setError Page.handleOCR Page.setResizedPreviewUrl Page.posted] in P;
      try (apply app_inv_head in P; now injection P);
      destruct (Absurd _ P). }
  assert (attached (Page.ocr_request file) file) as A
      by (exists [("image", entry_file file)]; split; reflexivity).
  split; [exact A|].
  destruct (credential_configured_key env C) as (key & E & N).
  destruct (POST_upstream_calls env (Page.ocr_request file) file key t E N A)
    as (processed & _ & R & U).
  split.
  - rewrite R. destruct (chat_completions_create _ _) as [c|e]; intros H; injection H as H.
    + destruct (completion_response_status c) as [S|S];
        rewrite H in S; discriminate S.
    + destruct (final_catch_is_error (rethrown e)) as [_ [S|[S|S]]];
        rewrite H in S; discriminate S.
  - rewrite U, length_app. simpl. lia.
Qed.

(** A real 1 x 1 PNG, loaded by the browser and posted by the page. *)
Lemma posted_png_carries_the_image :
  attached (Page.ocr_request pixel_png) pixel_png /\
  fst (@POST (stubSharp decode_png_640x480) (stubSdk (Normal None))
             sample_env (Page.ocr_request pixel_png) []) <>
  Normal invalid_input_response /\
  List.length
    (upstream_calls
       (snd (@POST (stubSharp decode_png_640x480) (stubSdk (Normal None))
                   sample_env (Page.ocr_request pixel_png) []))) =
  S (List.length (upstream_calls [])).
Proof.
  apply (@posted_request_carries_the_image
           (stubSharp decode_png_640x480) (stubSdk (Normal None)) stubBrowser
           sample_env pixel_png initial_page [] (Page.ocr_request pixel_png)).
  - reflexivity.
  - reflexivity.
Defined.
